(** * Verification of the prompt bot (promtme): chunker, rate limiter,
    completion client and conversation controller.

    Shallow embedding of [src/utils.py] and of [call_deepseek],
    [handle_description] and [handle_refinement] from [src/bot.py].

    Python strings are sequences of code points: [pystr := list Z].
    [len] is the number of code points, slicing works on code points. *)

From Stdlib Require Import ZArith List Lia QArith Lqa.
From Stdlib Require Import Strings.String Strings.Ascii.
From stdpp Require Import base gmap.
Import ListNotations.
Open Scope Z_scope.

(* ------------------------------------------------------------------ *)
(** ** Python strings *)

Definition pystr := list Z.

(** Python's [len]. *)
Definition pylen (s : pystr) : Z := Z.of_nat (length s).

(** Code points for which [str.isspace()] holds; these are the separators
    of [str.split()] and the characters removed by [str.strip()]. *)
Definition is_space (c : Z) : bool :=
  ((9 <=? c) && (c <=? 13)) || ((28 <=? c) && (c <=? 32)) ||
  (c =? 133) || (c =? 160) || (c =? 5760) ||
  ((8192 <=? c) && (c <=? 8202)) || (c =? 8232) || (c =? 8233) ||
  (c =? 8239) || (c =? 8287) || (c =? 12288).

Definition SPACE : Z := 32.
Definition ELLIPSIS : Z := 8230.  (* "…" *)

(** An ASCII literal as a Python string. *)
Definition lit (s : string) : pystr :=
  map (fun a => Z.of_nat (nat_of_ascii a)) (list_ascii_of_string s).

(** [str.lstrip()] *)
Fixpoint lstrip (s : pystr) : pystr :=
  match s with
  | [] => []
  | c :: s' => if is_space c then lstrip s' else s
  end.

(** [str.strip()] *)
Definition strip (s : pystr) : pystr := rev (lstrip (rev (lstrip s))).

(** [str.split()] with no separator: runs of whitespace separate tokens,
    empty tokens are dropped. [cur] is the token being read. *)
Fixpoint pysplit_go (cur : pystr) (s : pystr) : list pystr :=
  match s with
  | [] => match cur with [] => [] | _ => [cur] end
  | c :: s' =>
      if is_space c then
        match cur with
        | [] => pysplit_go [] s'
        | _ => cur :: pysplit_go [] s'
        end
      else pysplit_go (cur ++ [c]) s'
  end.

Definition pysplit (s : pystr) : list pystr := pysplit_go [] s.

(** [sep.join(parts)] *)
Fixpoint pyjoin (sep : pystr) (parts : list pystr) : pystr :=
  match parts with
  | [] => []
  | [p] => p
  | p :: ps => p ++ sep ++ pyjoin sep ps
  end.

(** [s[i:j]] for [0 <= i <= j]. *)
Definition pyslice (s : pystr) (i j : nat) : pystr :=
  firstn (j - i) (skipn i s).

(* ------------------------------------------------------------------ *)
(** ** Chunker: [split_into_chunks] (src/utils.py) *)

Module Chunker.

(** [[part[i : i + max_length] for i in range(i0, len(part), max_length)]]
    for a positive step; [fuel] bounds the iterations. *)
Fixpoint slices_from (fuel : nat) (part : pystr) (i step : nat) : list pystr :=
  match fuel with
  | O => []
  | S f =>
      if Nat.ltb i (length part)
      then pyslice part i (i + step) :: slices_from f part (i + step) step
      else []
  end.

(** The inner [for i in range(0, len(part), max_length)]: Python's [range]
    raises [ValueError] for a zero step ([None]) and is empty for a
    negative step. *)
Definition char_slices (part : pystr) (max_length : Z) : option (list pystr) :=
  if max_length =? 0 then None
  else if max_length <? 0 then Some []
  else Some (slices_from (length part) part 0 (Z.to_nat max_length)).

(** Loop variables [chunks], [current], [current_len]. *)
Record loop_st := mk_loop { chunks : list pystr; current : list pystr; current_len : Z }.

(** One iteration of [for part in text.split():]. *)
Definition step (max_length : Z) (st : loop_st) (part : pystr) : option loop_st :=
  let part_len := pylen part + (match current st with [] => 0 | _ => 1 end) in
  if current_len st + part_len <=? max_length then
    Some (mk_loop (chunks st) (current st ++ [part]) (current_len st + part_len))
  else
    let chunks1 := match current st with
                   | [] => chunks st
                   | _ => chunks st ++ [pyjoin [SPACE] (current st)]
                   end in
    if max_length <? pylen part then
      match char_slices part max_length with
      | None => None
      | Some sl => Some (mk_loop (chunks1 ++ sl) [] 0)
      end
    else Some (mk_loop chunks1 [part] (pylen part + 1)).

Fixpoint loop (max_length : Z) (st : loop_st) (parts : list pystr) : option loop_st :=
  match parts with
  | [] => Some st
  | p :: ps =>
      match step max_length st p with
      | None => None
      | Some st' => loop max_length st' ps
      end
  end.

(** [split_into_chunks(text, max_length)]; [None] is the [ValueError]
    raised by [range] with a zero step. *)
Definition split_into_chunks (text : pystr) (max_length : Z) : option (list pystr) :=
  match text with
  | [] => Some []
  | _ =>
    if pylen text <=? max_length then Some [text]
    else
      match loop max_length (mk_loop [] [] 0) (pysplit text) with
      | None => None
      | Some st =>
          Some (match current st with
                | [] => chunks st
                | _ => chunks st ++ [pyjoin [SPACE] (current st)]
                end)
      end
  end.

End Chunker.

(* ------------------------------------------------------------------ *)
(** ** Rate limiter: [RateLimiter] (src/utils.py)

    [time.monotonic()] readings are rationals (seconds). The
    [defaultdict(list)] of timestamps is a [gmap] read with default [[]]. *)

Module RateLimit.

Record RateLimiter := mk_limiter {
  max_per_minute : Z;
  timestamps : gmap Z (list Q)
}.

(** [self._timestamps[user_id]] *)
Definition user_ts (rl : RateLimiter) (user_id : Z) : list Q :=
  match timestamps rl !! user_id with Some ts => ts | None => [] end.

(** [t > cutoff] *)
Definition newer_than (cutoff t : Q) : bool := negb (Qle_bool t cutoff).

(** [is_allowed(user_id)] at clock reading [now]. *)
Definition is_allowed (now : Q) (user_id : Z) (rl : RateLimiter) : bool * RateLimiter :=
  let cutoff := (now - 60)%Q in
  let kept := List.filter (newer_than cutoff) (user_ts rl user_id) in
  let rl1 := mk_limiter (max_per_minute rl) (<[user_id := kept]> (timestamps rl)) in
  if max_per_minute rl <=? Z.of_nat (length kept) then (false, rl1)
  else (true, mk_limiter (max_per_minute rl) (<[user_id := kept ++ [now]]> (timestamps rl1))).

(** A sequence of calls [(now, user_id)], with the answers per user. *)
Fixpoint run (rl : RateLimiter) (calls : list (Q * Z)) : list (Z * bool) * RateLimiter :=
  match calls with
  | [] => ([], rl)
  | (now, u) :: cs =>
      let '(b, rl1) := is_allowed now u rl in
      let '(outs, rl2) := run rl1 cs in
      ((u, b) :: outs, rl2)
  end.

(** The calls made for user [u], in order. *)
Definition calls_of (u : Z) (calls : list (Q * Z)) : list (Q * Z) :=
  List.filter (fun c => Z.eqb (snd c) u) calls.

(** The answers given to user [u], in order. *)
Definition answers_of (u : Z) (outs : list (Z * bool)) : list bool :=
  map snd (List.filter (fun o => Z.eqb (fst o) u) outs).

(** The window of one user on its own: the decision and the kept
    timestamps, as [is_allowed] computes them for that user. *)
Definition window_step (max : Z) (now : Q) (ts : list Q) : bool * list Q :=
  let kept := List.filter (newer_than (now - 60)%Q) ts in
  if max <=? Z.of_nat (length kept) then (false, kept) else (true, kept ++ [now]).

Fixpoint window_run (max : Z) (ts : list Q) (calls : list (Q * Z)) : list bool :=
  match calls with
  | [] => []
  | (now, _) :: cs =>
      let '(b, ts1) := window_step max now ts in b :: window_run max ts1 cs
  end.

(** The sliding window as the spec words it: timestamps strictly older
    than [now - 60] are purged, so one exactly [60] seconds old is kept. *)
Definition is_allowed_spec (now : Q) (user_id : Z) (rl : RateLimiter) : bool * RateLimiter :=
  let cutoff := (now - 60)%Q in
  let kept := List.filter (fun t => Qle_bool cutoff t) (user_ts rl user_id) in
  let rl1 := mk_limiter (max_per_minute rl) (<[user_id := kept]> (timestamps rl)) in
  if max_per_minute rl <=? Z.of_nat (length kept) then (false, rl1)
  else (true, mk_limiter (max_per_minute rl) (<[user_id := kept ++ [now]]> (timestamps rl))).

Definition RATE_LIMIT_REQUESTS_PER_MINUTE : Z := 5.

(** [rate_limiter = RateLimiter(config.RATE_LIMIT_REQUESTS_PER_MINUTE)] *)
Definition rate_limiter0 : RateLimiter := mk_limiter RATE_LIMIT_REQUESTS_PER_MINUTE ∅.

End RateLimit.

(* ------------------------------------------------------------------ *)
(** ** Completion client: [call_deepseek] (src/bot.py) *)

Module Completion.

Inductive Category := IMAGE | CODE | VIDEO | TEXT.

(** The system prompt sent: [SYSTEM_PROMPTS[category]] or
    [REFINEMENT_SYSTEM_PROMPT] (src/config.py). *)
Inductive system_prompt := SystemPrompt (c : Category) | RefinementSystemPrompt.

(** Exceptions (subclasses of [Exception]) that reach [except Exception]. *)
Inductive exn :=
| ValueError (msg : pystr)        (* raised by the empty-response check *)
| TransportError (msg : pystr)    (* raised by [client.chat.completions.create]
                                     or by reading [response.choices[0]] *)
| TypeError.                      (* [raise None] *)

(** What the [attempt]-th transport call does: it returns a response whose
    [choices[0].message.content] is [content] (possibly [None]), or raises. *)
Inductive transport_outcome :=
| Response (content : option pystr)
| Raised (e : exn).

Inductive result := Ok (s : pystr) | Err (e : exn).

(** Observable steps of the retry loop. *)
Inductive event := Attempt (n : nat) | Sleep (secs : Z).

Definition DEEPSEEK_RETRY_ATTEMPTS : nat := 3.

Definition EMPTY_RESPONSE_MSG : pystr := lit "Empty response from DeepSeek".

(** The body of the [try]: check the content and strip it. *)
Definition attempt_once (o : transport_outcome) : result :=
  match o with
  | Raised e => Err e
  | Response None => Err (ValueError EMPTY_RESPONSE_MSG)
  | Response (Some content) =>
      match content, strip content with
      | [], _ => Err (ValueError EMPTY_RESPONSE_MSG)
      | _, [] => Err (ValueError EMPTY_RESPONSE_MSG)
      | _, s => Ok s
      end
  end.

(** [for attempt in range(R): try ... except Exception as e: ...];
    then [raise last_error]. *)
Fixpoint retry_loop (tr : nat -> transport_outcome) (R : nat) (todo : list nat)
    (last_error : option exn) : result * list event :=
  match todo with
  | [] => (Err (match last_error with Some e => e | None => TypeError end), [])
  | attempt :: rest =>
      match attempt_once (tr attempt) with
      | Ok v => (Ok v, [Attempt attempt])
      | Err e =>
          let '(r, evs) := retry_loop tr R rest (Some e) in
          (r, Attempt attempt ::
                (if Nat.ltb attempt (R - 1) then [Sleep (2 ^ Z.of_nat attempt)] else [])
                ++ evs)
      end
  end.

(** The transport, as a function of the two messages and of the attempt. *)
Definition transport := system_prompt -> pystr -> nat -> transport_outcome.

Definition call_deepseek (tp : transport) (sp : system_prompt) (user_message : pystr)
    : result * list event :=
  retry_loop (tp sp user_message) DEEPSEEK_RETRY_ATTEMPTS
    (seq 0 DEEPSEEK_RETRY_ATTEMPTS) None.

(** The trace when attempts [0 .. k-1] fail and attempt [k] ends the loop:
    each failed attempt is followed by a sleep of [2^attempt] seconds. *)
Definition backoff_trace (k : nat) : list event :=
  flat_map (fun i => [Attempt i; Sleep (2 ^ Z.of_nat i)]) (seq 0 k) ++ [Attempt k].

(** A transport that raises twice, then answers [content]. *)
Definition flaky_transport (content : pystr) : transport :=
  fun _ _ attempt =>
    if Nat.ltb attempt 2 then Raised (TransportError (lit "Request timed out."))
    else Response (Some content).

(** A transport whose every answer is a space and a newline. *)
Definition blank_transport : transport := fun _ _ _ => Response (Some [32; 10]).

End Completion.

(* ------------------------------------------------------------------ *)
(** ** Conversation controller: [handle_description], [handle_refinement]
    (src/bot.py)

    [context.user_data] is the record [session]; the module-level
    [rate_limiter] is threaded through. The text of outgoing messages is
    not modelled. What is modelled is the outcome of every call inside the
    [try] block around the Completion Client, since an error there reaches
    the outer [except Exception]. These calls are the best-effort
    [status_msg.delete()] (an error other than [BadRequest] escapes it) and,
    in [handle_description], the replies that send the result. Sends
    outside that block (the status message, the error replies) are taken to
    succeed: an error there escapes the handler. *)

Module Controller.
Import Completion RateLimit.

Inductive ConversationState := MAIN_MENU | AWAITING_DESCRIPTION | PROMPT_SHOWN | AWAITING_REFINEMENT.

Record history_entry := mk_entry { h_category : Category; h_text : pystr }.

(** [context.user_data]; ["category"] is only ever written by
    [category_callback] with a valid [Category] value. *)
Record session := mk_session {
  category : option Category;
  last_prompt : option pystr;
  last_category : option Category;
  original_description : option pystr;
  history : list history_entry
}.

Inductive delete_outcome := Deleted | DeleteBadRequest | DeleteFailed (e : exn).

(** The replies of [handle_description] after the history update: all
    succeed, one of those sending the result (lines 326-331) raises, or
    the last one (line 336, after the session fields are set) raises. *)
Inductive send_outcome := SentAll | ResultSendFailed (e : exn) | MenuSendFailed (e : exn).

Definition HISTORY_MAX_ITEMS : nat := 5.

(** [l[-n:]] *)
Definition py_tail {A} (n : nat) (l : list A) : list A := skipn (length l - n) l.

(** [result[:200] + ("…" if len(result) > 200 else "")] *)
Definition preview (result : pystr) : pystr :=
  firstn 200 result ++ (if 200 <? pylen result then [ELLIPSIS] else []).

(** Lines 321-323: append the entry, keep the last [HISTORY_MAX_ITEMS]. *)
Definition append_history (h : list history_entry) (c : Category) (result : pystr)
    : list history_entry :=
  py_tail HISTORY_MAX_ITEMS (h ++ [mk_entry c (preview result)]).

(** [(update.message.text or "").strip()] *)
Definition message_text (text : option pystr) : pystr :=
  strip (match text with Some t => t | None => [] end).

Definition handle_description (tp : transport) (del : delete_outcome) (sent : send_outcome)
    (now : Q) (user_id : Z) (text : option pystr) (ses : session) (rl : RateLimiter)
    : ConversationState * session * RateLimiter :=
  match category ses with
  | None => (MAIN_MENU, ses, rl)
  | Some cat =>
      match message_text text with
      | [] => (AWAITING_DESCRIPTION, ses, rl)
      | user_text =>
          let '(allowed, rl1) := is_allowed now user_id rl in
          if negb allowed then (AWAITING_DESCRIPTION, ses, rl1) else
          match fst (call_deepseek tp (SystemPrompt cat) user_text) with
          | Err _ => (MAIN_MENU, ses, rl1)
          | Ok result =>
              match del with
              | DeleteFailed _ => (MAIN_MENU, ses, rl1)
              | _ =>
                  (* lines 321-323 *)
                  let ses1 := mk_session (category ses) (last_prompt ses) (last_category ses)
                                (original_description ses)
                                (append_history (history ses) cat result) in
                  match sent with
                  | ResultSendFailed _ => (MAIN_MENU, ses1, rl1)
                  | _ =>
                      (* lines 333-335 *)
                      let ses2 := mk_session (category ses1) (Some result) (Some cat)
                                    (Some user_text) (history ses1) in
                      match sent with
                      | MenuSendFailed _ => (MAIN_MENU, ses2, rl1)
                      | _ => (PROMPT_SHOWN, ses2, rl1)
                      end
                  end
              end
          end
      end
  end.

(** [f"Current prompt:\n{last_prompt}\n\nUser's requested changes or additions:\n{user_text}"] *)
Definition refinement_message (last : pystr) (user_text : pystr) : pystr :=
  lit "Current prompt:" ++ [10] ++ last ++ [10; 10] ++
  lit "User's requested changes or additions:" ++ [10] ++ user_text.

Definition handle_refinement (tp : transport) (del : delete_outcome) (now : Q)
    (user_id : Z) (text : option pystr) (ses : session) (rl : RateLimiter)
    : ConversationState * session * RateLimiter :=
  match last_prompt ses with
  | None | Some [] => (MAIN_MENU, ses, rl)
  | Some last =>
      match message_text text with
      | [] => (AWAITING_REFINEMENT, ses, rl)
      | user_text =>
          let '(allowed, rl1) := is_allowed now user_id rl in
          if negb allowed then (AWAITING_REFINEMENT, ses, rl1) else
          match fst (call_deepseek tp RefinementSystemPrompt (refinement_message last user_text)) with
          | Err _ => (PROMPT_SHOWN, ses, rl1)
          | Ok result =>
              match del with
              | DeleteFailed _ => (PROMPT_SHOWN, ses, rl1)
              | _ =>
                  (PROMPT_SHOWN,
                   mk_session (category ses) (Some result) (last_category ses)
                     (original_description ses) (history ses),
                   rl1)
              end
          end
      end
  end.

End Controller.

(* ------------------------------------------------------------------ *)
(** ** Environment check: [_require_env] (src/config.py) *)

Module Config.

(** The [RuntimeError] raised for the variable [name]; its message is built
    from [name] and the path of the [.env] file. *)
Inductive env_error := RuntimeError (name : pystr).

(** [_require_env(name)], where [value] is [os.getenv(name)]. *)
Definition require_env (name : pystr) (value : option pystr) : env_error + pystr :=
  match value with
  | None => inl (RuntimeError name)
  | Some v =>
      match v, strip v with
      | [], _ => inl (RuntimeError name)
      | _, [] => inl (RuntimeError name)
      | _, s => inr s
      end
  end.

End Config.

(* ------------------------------------------------------------------ *)
(** ** Error report of the handlers (src/bot.py, lines 344-348 and
    412-416)

    [str.lower()] follows the Unicode case tables; it is a parameter
    [lower], constrained only on ASCII text, where it maps [A-Z] to
    [a-z] and keeps every other character. *)

Module ErrorReport.
Import Completion.

(** [x in s] for strings. *)
Fixpoint is_prefix (p s : pystr) : bool :=
  match p, s with
  | [], _ => true
  | _ :: _, [] => false
  | a :: p', b :: s' => (a =? b) && is_prefix p' s'
  end.

Fixpoint contains (sub s : pystr) : bool :=
  is_prefix sub s || match s with [] => false | _ :: s' => contains sub s' end.

(** [str(e)] *)
Definition str_exn (e : exn) : pystr :=
  match e with
  | ValueError msg => msg
  | TransportError msg => msg
  | TypeError => lit "exceptions must derive from BaseException"
  end.

(** Which of [MSG_ERROR_NETWORK], [MSG_ERROR_API], [MSG_ERROR_UNKNOWN] is sent. *)
Inductive err_msg := MSG_ERROR_NETWORK | MSG_ERROR_API | MSG_ERROR_UNKNOWN.

Definition error_message (lower : pystr -> pystr) (e : exn) : err_msg :=
  let s := str_exn e in
  if contains (lit "timeout") (lower s) || contains (lit "connection") (lower s)
  then MSG_ERROR_NETWORK
  else if contains (lit "api_key") (lower s) || contains (lit "401") s || contains (lit "429") s
  then MSG_ERROR_API
  else MSG_ERROR_UNKNOWN.

(** [str.lower()] on ASCII characters. *)
Definition ascii_lower (c : Z) : Z := if (65 <=? c) && (c <=? 90) then c + 32 else c.

Definition is_ascii (s : pystr) : Prop := Forall (fun c => 0 <= c < 128) s.

End ErrorReport.

(* ------------------------------------------------------------------ *)
(** ** The other handlers that use [context.user_data], the prompt
    delivery and [cmd_history] (src/bot.py) *)

Module Handlers.
Import Completion RateLimit Controller.

(** [Category.<member>.value] *)
Definition category_value (c : Category) : pystr :=
  lit (match c with IMAGE => "image" | CODE => "code" | VIDEO => "video" | TEXT => "text" end).

(** The members of [Category], in definition order. *)
Definition all_categories : list Category := [IMAGE; CODE; VIDEO; TEXT].

Definition pystr_eqb (a b : pystr) : bool := bool_decide (a = b).

(** [Category(data)]: the member whose value is [data]; [None] is the
    [ValueError]. *)
Definition category_of_value (data : pystr) : option Category :=
  List.find (fun c => pystr_eqb (category_value c) data) all_categories.

(** [a or b] on chat ids: [None] and [0] are false. *)
Definition py_or_chat (a b : option Z) : option Z :=
  match a with Some x => if x =? 0 then b else a | None => b end.

(** [category_callback]: [query] is [update.callback_query] ([None] when
    absent) reduced to its [data]; [msg_chat] is [query.message.chat_id]
    ([None] without a message) and [eff_chat] is [update.effective_chat.id].
    The messages it sends are not modelled. *)
Definition category_callback (query : option (option pystr)) (msg_chat eff_chat : option Z)
    (ses : session) : ConversationState * session :=
  match query with
  | None => (MAIN_MENU, ses)
  | Some data =>
      match category_of_value (match data with Some d => d | None => [] end) with
      | None => (MAIN_MENU, ses)
      | Some c =>
          let ses1 := mk_session (Some c) (last_prompt ses) (last_category ses)
                        (original_description ses) (history ses) in
          match py_or_chat msg_chat eff_chat with
          | None => (MAIN_MENU, ses1)
          | Some _ => (AWAITING_DESCRIPTION, ses1)
          end
      end
  end.

Definition MAX_MESSAGE_LENGTH : Z := 4096.

(** Lines 327-331 (and 399-403): the messages that carry [result]. *)
Definition prompt_messages (result : pystr) : option (list pystr) :=
  if pylen result <=? MAX_MESSAGE_LENGTH then Some [result]
  else Chunker.split_into_chunks result MAX_MESSAGE_LENGTH.

(** [str(n)] for a natural number. *)
Fixpoint digits_go (fuel n : nat) (acc : pystr) : pystr :=
  match fuel with
  | O => acc
  | S f =>
      let acc' := (48 + Z.of_nat (n mod 10)) :: acc in
      if Nat.ltb n 10 then acc' else digits_go f (n / 10) acc'
  end.

Definition py_str_nat (n : nat) : pystr := digits_go (S n) n [].

(** [MSG_HISTORY_EMPTY] *)
Definition MSG_HISTORY_EMPTY : pystr :=
  128237 :: lit " No generated prompts yet. Use the menu to create one.".

(** [MSG_HISTORY_HEADER.format(n)] *)
Definition history_header (n : nat) : pystr :=
  128220 :: lit " *Last " ++ py_str_nat n ++ lit " prompts:*" ++ [10; 10].

(** One line of the listing, for the [i]-th entry of [reversed(history)]. *)
Definition history_line (i : nat) (item : history_entry) : pystr :=
  let cat := category_value (h_category item) in
  let preview := firstn 150 (h_text item) in
  py_str_nat i ++ lit ". *" ++ cat ++ lit "* " ++ [8212; 32] ++ preview ++
  (if 150 <=? pylen preview then [ELLIPSIS] else []).

(** [for i, item in enumerate(items, i0)] *)
Fixpoint history_lines (i : nat) (items : list history_entry) : list pystr :=
  match items with
  | [] => []
  | item :: rest => history_line i item :: history_lines (S i) rest
  end.

(** The text [cmd_history] replies with. *)
Definition cmd_history (h : list history_entry) : pystr :=
  match h with
  | [] => MSG_HISTORY_EMPTY
  | _ => history_header (length h) ++ pyjoin [10] (history_lines 1 (rev h))
  end.

(** The updates that reach a handler reading or writing
    [context.user_data]. The other handlers ([cmd_start], [entry_callback],
    [help_callback], [back_callback], [approve_callback], [refine_callback],
    [cmd_cancel], [cmd_help], [cmd_history]) write nothing there. *)
Inductive update :=
| CategoryTap (query : option (option pystr)) (msg_chat eff_chat : option Z)
| Description (tp : transport) (del : delete_outcome) (sent : send_outcome) (now : Q)
    (user_id : Z) (text : option pystr)
| Refinement (tp : transport) (del : delete_outcome) (now : Q) (user_id : Z) (text : option pystr).

Definition dispatch (u : update) (ses : session) (rl : RateLimiter)
    : ConversationState * session * RateLimiter :=
  match u with
  | CategoryTap q mc ec => let '(st, ses1) := category_callback q mc ec ses in (st, ses1, rl)
  | Description tp del sent now uid text => handle_description tp del sent now uid text ses rl
  | Refinement tp del now uid text => handle_refinement tp del now uid text ses rl
  end.

(** A sequence of updates of one user, with the shared rate limiter. *)
Fixpoint drive (us : list update) (ses : session) (rl : RateLimiter) : session * RateLimiter :=
  match us with
  | [] => (ses, rl)
  | u :: us' => let '(_, ses1, rl1) := dispatch u ses rl in drive us' ses1 rl1
  end.

(** [context.user_data] of a user the bot has not seen yet. *)
Definition new_session : session := mk_session None None None None [].

End Handlers.

(* ------------------------------------------------------------------ *)
(** ** Vocabulary of the chunker's guarantees *)

Definition no_space (w : pystr) : Prop := Forall (fun c => is_space c = false) w.

(** A token produced by [str.split()]: non-empty, without whitespace. *)
Definition token (w : pystr) : Prop := w <> [] /\ no_space w.

(** [reassembles L cs ts]: the chunks [cs] give back the token sequence
    [ts]. A chunk is either a run of packed tokens, read back with
    [str.split()] (whitespace inside it collapses), or one of the
    [ceil(len(t)/L)] character slices of an over-length token [t], each at
    most [L] long, whose concatenation is [t]. *)
Inductive reassembles (L : Z) : list pystr -> list pystr -> Prop :=
| ra_nil : reassembles L [] []
| ra_packed (c : pystr) (cs ts : list pystr) :
    reassembles L cs ts -> reassembles L (c :: cs) (pysplit c ++ ts)
| ra_sliced (pieces : list pystr) (t : pystr) (cs ts : list pystr) :
    L < pylen t ->
    Z.of_nat (length pieces) = (pylen t + L - 1) / L ->
    Forall (fun p => pylen p <= L) pieces ->
    concat pieces = t ->
    reassembles L cs ts -> reassembles L (pieces ++ cs) (t :: ts).

(** A chunk that is one or more whitespace-free words joined by single
    spaces: non-empty, no leading or trailing whitespace, no newline. *)
Definition chunk_shape (c : pystr) : Prop :=
  exists ws, ws <> [] /\ Forall token ws /\ c = pyjoin [SPACE] ws.

(** Clock readings that never go back ([time.monotonic()]). *)
Fixpoint nondecreasing (ts : list Q) : bool :=
  match ts with
  | [] => true
  | t :: r => match r with [] => true | t' :: _ => Qle_bool t t' && nondecreasing r end
  end.

(** The times of the calls of user [u] that [is_allowed] admitted. *)
Definition admitted_times (u : Z) (rl : RateLimit.RateLimiter) (calls : list (Q * Z)) : list Q :=
  map (fun cb => fst (fst cb))
    (List.filter snd (combine (RateLimit.calls_of u calls)
                              (RateLimit.answers_of u (fst (RateLimit.run rl calls))))).

(** What a session can hold after any sequence of handler calls: at most
    [HISTORY_MAX_ITEMS] entries of at most 201 characters; the last prompt,
    its category and the original description are set together; stored
    prompts and descriptions are non-empty and stripped. *)
Definition session_ok (ses : Controller.session) : Prop :=
  (length (Controller.history ses) <= Controller.HISTORY_MAX_ITEMS)%nat /\
  Forall (fun e => pylen (Controller.h_text e) <= 201) (Controller.history ses) /\
  (Controller.last_prompt ses = None <-> Controller.last_category ses = None) /\
  (Controller.last_prompt ses = None <-> Controller.original_description ses = None) /\
  (forall p, Controller.last_prompt ses = Some p -> p <> [] /\ strip p = p) /\
  (forall d, Controller.original_description ses = Some d -> d <> [] /\ strip d = d).

(** The line [/history] is expected to show for the [i]-th most recent
    generation, of category [c] and result [r]: the first 150 characters of
    [r], then one ellipsis when [r] has at least 150 characters. *)
Definition shown_line (i : nat) (c : Completion.Category) (r : pystr) : pystr :=
  Handlers.py_str_nat i ++ lit ". *" ++ Handlers.category_value c ++ lit "* " ++ [8212; 32] ++
  firstn 150 r ++ (if 150 <=? pylen r then [ELLIPSIS] else []).

Fixpoint shown_lines (i : nat) (gens : list (Completion.Category * pystr)) : list pystr :=
  match gens with
  | [] => []
  | g :: rest => shown_line i (fst g) (snd g) :: shown_lines (S i) rest
  end.

(* ------------------------------------------------------------------ *)
(** ** Properties of the string primitives *)

Lemma pysplit_go_tokens (s cur : pystr) :
  no_space cur -> Forall token (pysplit_go cur s).
Proof.
  revert cur. induction s as [|c s IH]; intros cur Hcur; simpl.
  - destruct cur; constructor; [split; [discriminate | exact Hcur] | constructor].
  - destruct (is_space c) eqn:Hc.
    + destruct cur as [|x cur'].
      * apply IH. constructor.
      * constructor; [split; [discriminate | exact Hcur] | apply IH; constructor].
    + apply IH. apply Forall_app. split; [exact Hcur | constructor; [exact Hc | constructor]].
Qed.

Lemma pysplit_tokens (s : pystr) : Forall token (pysplit s).
Proof. apply pysplit_go_tokens. constructor. Qed.

Lemma pysplit_go_word (w cur s : pystr) :
  no_space w -> pysplit_go cur (w ++ s) = pysplit_go (cur ++ w) s.
Proof.
  revert cur. induction w as [|c w IH]; intros cur Hw; simpl.
  - now rewrite app_nil_r.
  - inversion Hw as [|? ? Hc Hw']; subst. rewrite Hc, IH by exact Hw'.
    now rewrite <- app_assoc.
Qed.

Lemma pysplit_join (ws : list pystr) :
  Forall token ws -> pysplit (pyjoin [SPACE] ws) = ws.
Proof.
  unfold pysplit. induction ws as [|w ws IH]; intros Hws; [reflexivity|].
  inversion Hws as [|? ? [Hne Hw] Hws']; subst.
  destruct ws as [|w2 ws'].
  - simpl. rewrite <- (app_nil_r w) at 1. rewrite pysplit_go_word by exact Hw.
    simpl. destruct w; [congruence | reflexivity].
  - change (pyjoin [SPACE] (w :: w2 :: ws'))
      with (w ++ [SPACE] ++ pyjoin [SPACE] (w2 :: ws')).
    rewrite pysplit_go_word by exact Hw.
    destruct w as [|x w']; [congruence|]. cbn -[pyjoin]. now rewrite IH.
Qed.

Lemma pyjoin_snoc (ws : list pystr) (p : pystr) :
  ws <> [] -> length (pyjoin [SPACE] (ws ++ [p])) =
              (length (pyjoin [SPACE] ws) + 1 + length p)%nat.
Proof.
  induction ws as [|w ws IH]; intros Hne; [congruence|].
  destruct ws as [|w2 ws'].
  - simpl. rewrite length_app. simpl. lia.
  - change ((w :: w2 :: ws') ++ [p]) with (w :: ((w2 :: ws') ++ [p])).
    remember ((w2 :: ws') ++ [p]) as r eqn:Hr.
    destruct r as [|r0 rs]; [destruct ws'; discriminate|].
    change (length (w ++ [SPACE] ++ pyjoin [SPACE] (r0 :: rs)) =
            (length (w ++ [SPACE] ++ pyjoin [SPACE] (w2 :: ws')) + 1 + length p)%nat).
    rewrite Hr in *. rewrite !length_app, IH by discriminate. simpl. lia.
Qed.

Lemma strip_nonspace (s : pystr) :
  strip s <> [] -> Exists (fun c => is_space c = false) (strip s).
Proof.
  unfold strip. generalize (rev (lstrip s)) as t. intros t.
  assert (Hl : forall u, lstrip u <> [] -> Exists (fun c => is_space c = false) (lstrip u)).
  { induction u as [|c u IH]; simpl; [congruence|].
    destruct (is_space c) eqn:Hc; [exact IH|]. intros _. now constructor. }
  intros Hne. apply Exists_rev. apply Hl. intros E. apply Hne. now rewrite E.
Qed.

(* ------------------------------------------------------------------ *)
(** ** Chunker lemmas *)

Module ChunkerFacts.
Import Chunker.

Lemma slices_from_le (f : nat) (part : pystr) (i step : nat) :
  Forall (fun c => (length c <= step)%nat) (slices_from f part i step).
Proof.
  revert i. induction f as [|f IH]; intros i; simpl; [constructor|].
  destruct (Nat.ltb i (length part)); [|constructor].
  constructor; [|apply IH]. unfold pyslice. rewrite length_firstn. lia.
Qed.

Lemma slices_from_concat (f : nat) (part : pystr) (i step : nat) :
  (length part <= i + f * step)%nat ->
  concat (slices_from f part i step) = skipn i part.
Proof.
  revert i. induction f as [|f IH]; intros i Hf; simpl.
  - symmetry. apply skipn_all2. lia.
  - destruct (Nat.ltb_spec i (length part)).
    + simpl. rewrite IH by lia. unfold pyslice.
      replace (i + step - i)%nat with step by lia.
      rewrite (Nat.add_comm i step), <- skipn_skipn. apply firstn_skipn.
    + symmetry. apply skipn_all2. lia.
Qed.

Lemma slices_from_count (f : nat) (part : pystr) (i step : nat) :
  (0 < step)%nat -> (length part <= i + f * step)%nat ->
  length (slices_from f part i step) = ((length part - i + step - 1) / step)%nat.
Proof.
  intros Hs. revert i. induction f as [|f IH]; intros i Hf; simpl.
  - symmetry. apply Nat.div_small. lia.
  - destruct (Nat.ltb_spec i (length part)).
    + simpl. rewrite IH by lia.
      destruct (Nat.le_gt_cases (length part - i) step).
      * rewrite (Nat.div_small (length part - (i + step) + step - 1)) by lia.
        apply (Nat.div_unique _ _ _ (length part - i - 1)); lia.
      * replace (length part - i + step - 1)%nat
          with ((length part - (i + step) + step - 1) + 1 * step)%nat by lia.
        rewrite Nat.div_add by lia. lia.
    + symmetry. apply Nat.div_small. lia.
Qed.

End ChunkerFacts.

Module ChunkerLoop.
Import Chunker ChunkerFacts.

Lemma reassembles_app (L : Z) (cs1 ts1 cs2 ts2 : list pystr) :
  reassembles L cs1 ts1 -> reassembles L cs2 ts2 ->
  reassembles L (cs1 ++ cs2) (ts1 ++ ts2).
Proof.
  intros H1 H2. induction H1; simpl; [exact H2| |].
  - rewrite <- app_assoc. now constructor.
  - rewrite <- app_assoc. now constructor.
Qed.

Lemma char_slices_spec (part : pystr) (L : Z) :
  0 < L -> L < pylen part ->
  exists pieces, char_slices part L = Some pieces /\
    Z.of_nat (length pieces) = (pylen part + L - 1) / L /\
    Forall (fun p => pylen p <= L) pieces /\ concat pieces = part.
Proof.
  intros HL Hlt. unfold char_slices.
  rewrite (proj2 (Z.eqb_neq L 0)) by lia.
  rewrite (proj2 (Z.ltb_ge L 0)) by lia.
  eexists; split; [reflexivity|]. unfold pylen in *.
  repeat split.
  - rewrite (slices_from_count (length part) part 0 (Z.to_nat L)) by nia.
    rewrite Nat2Z.inj_div, !Nat2Z.inj_sub, Nat2Z.inj_add, Z2Nat.id by nia. f_equal. lia.
  - eapply Forall_impl; [apply slices_from_le|].
    intros c Hc. simpl in Hc. lia.
  - rewrite (slices_from_concat (length part) part 0 (Z.to_nat L)) by nia. reflexivity.
Qed.

(** The loop invariant: chunks so far fit, the pending line fits and is
    over-approximated by [current_len], and chunks plus pending tokens
    give back the tokens read so far. *)
Definition inv (L : Z) (pre : list pystr) (st : loop_st) : Prop :=
  Forall (fun c => pylen c <= L) (chunks st) /\
  pylen (pyjoin [SPACE] (current st)) <= L /\
  pylen (pyjoin [SPACE] (current st)) <= current_len st /\
  0 <= current_len st /\
  exists ts, reassembles L (chunks st) ts /\ ts ++ current st = pre.

Lemma flush_spec (L : Z) (chunks0 cur ts : list pystr) :
  Forall token cur -> reassembles L chunks0 ts ->
  reassembles L (match cur with [] => chunks0 | _ => chunks0 ++ [pyjoin [SPACE] cur] end)
    (ts ++ cur).
Proof.
  intros Hcur Hr. destruct cur as [|w ws]; [now rewrite app_nil_r|].
  apply reassembles_app; [exact Hr|].
  rewrite <- (app_nil_r (w :: ws)) at 2. rewrite <- (pysplit_join (w :: ws)) at 2 by exact Hcur.
  constructor. constructor.
Qed.

Lemma step_inv (L : Z) (pre : list pystr) (st : loop_st) (p : pystr) :
  0 < L -> Forall token pre -> token p -> inv L pre st ->
  exists st', step L st p = Some st' /\ inv L (pre ++ [p]) st'.
Proof.
  intros HL Hpre Hp (Hch & Hj & Hjc & Hc0 & ts & Hr & Hts).
  assert (Hcur : Forall token (current st)).
  { rewrite <- Hts in Hpre. apply Forall_app in Hpre. tauto. }
  destruct st as [chs cur cl]; simpl in *.
  unfold step; simpl.
  destruct (Z.leb_spec (cl + (pylen p + match cur with [] => 0 | _ => 1 end)) L) as [Hle|Hgt].
  - eexists; split; [reflexivity|]. unfold inv; cbn [chunks current current_len].
    repeat split; [exact Hch| | | |].
    + destruct cur as [|w ws]; [simpl in *; lia|].
      unfold pylen in *. rewrite pyjoin_snoc by discriminate. lia.
    + destruct cur as [|w ws]; [simpl in *; lia|].
      unfold pylen in *. rewrite pyjoin_snoc by discriminate. lia.
    + destruct cur; unfold pylen in *; lia.
    + exists ts. split; [exact Hr|]. rewrite app_assoc. now rewrite Hts.
  - assert (Hr1 := flush_spec L chs cur ts Hcur Hr).
    assert (Hch1 : Forall (fun c => pylen c <= L)
              (match cur with [] => chs | _ => chs ++ [pyjoin [SPACE] cur] end)).
    { destruct cur; [exact Hch|]. apply Forall_app. split; [exact Hch|].
      constructor; [exact Hj | constructor]. }
    destruct (Z.ltb_spec L (pylen p)) as [Hlong|Hshort].
    + destruct (char_slices_spec p L HL Hlong) as (pieces & -> & Hn & Hle & Hcat).
      eexists; split; [reflexivity|]. unfold inv; cbn [chunks current current_len].
      repeat split; [apply Forall_app; tauto | unfold pylen; simpl; lia
                    | unfold pylen; simpl; lia | lia |].
      exists ((ts ++ cur) ++ [p]). split; [|now rewrite app_nil_r, <- Hts].
      apply reassembles_app; [exact Hr1|].
      rewrite <- (app_nil_r pieces). constructor; auto. constructor.
    + eexists; split; [reflexivity|]. unfold inv; cbn [chunks current current_len].
      repeat split; [exact Hch1 | simpl; lia | simpl; lia | unfold pylen; lia |].
      exists (ts ++ cur). split; [exact Hr1|]. now rewrite Hts.
Qed.

Lemma loop_inv (L : Z) (ps pre : list pystr) (st : loop_st) :
  0 < L -> Forall token (pre ++ ps) -> inv L pre st ->
  exists st', loop L st ps = Some st' /\ inv L (pre ++ ps) st'.
Proof.
  revert pre st. induction ps as [|p ps IH]; intros pre st HL Hall Hinv; simpl.
  - exists st. now rewrite app_nil_r.
  - apply Forall_app in Hall as [Hpre Hps]. inversion Hps as [|? ? Hp Hps']; subst.
    destruct (step_inv L pre st p HL Hpre Hp Hinv) as (st' & -> & Hinv').
    replace (pre ++ p :: ps) with ((pre ++ [p]) ++ ps) by now rewrite <- app_assoc.
    apply IH; auto. rewrite <- app_assoc. apply Forall_app. now split.
Qed.

(** Every successful run of [split_into_chunks] with a positive limit. *)
Lemma split_spec (T : pystr) (L : Z) :
  0 < L ->
  exists cs, split_into_chunks T L = Some cs /\
    Forall (fun c => pylen c <= L) cs /\ reassembles L cs (pysplit T) /\
    (T <> [] -> pylen T <= L -> cs = [T]).
Proof.
  intros HL. unfold split_into_chunks.
  destruct T as [|x T'] eqn:HT.
  { eexists; split; [reflexivity|]. repeat split; [constructor | constructor | congruence]. }
  rewrite <- HT.
  destruct (Z.leb_spec (pylen T) L) as [Hle|Hgt].
  - eexists; split; [reflexivity|]. repeat split.
    + constructor; [exact Hle | constructor].
    + rewrite <- (app_nil_r (pysplit T)). constructor. constructor.
  - assert (Hinv0 : inv L [] (mk_loop [] [] 0)).
    { unfold inv; cbn [chunks current current_len].
      split; [constructor|]. split; [unfold pylen; simpl; lia|].
      split; [unfold pylen; simpl; lia|]. split; [lia|].
      exists []. split; constructor. }
    destruct (loop_inv L (pysplit T) [] _ HL (pysplit_tokens T) Hinv0)
      as (st & -> & Hch & Hj & _ & _ & ts & Hr & Hts).
    eexists; split; [reflexivity|]. repeat split; [| |lia].
    + destruct (current st); [exact Hch|]. apply Forall_app. split; [exact Hch|].
      constructor; [exact Hj|constructor].
    + simpl in Hts. rewrite <- Hts. apply flush_spec; [|exact Hr].
      assert (Ht := pysplit_tokens T). rewrite <- Hts in Ht.
      apply Forall_app in Ht. tauto.
Qed.

End ChunkerLoop.

(* ------------------------------------------------------------------ *)
(** ** Whitespace-only texts *)

Lemma pysplit_go_spaces (s : pystr) :
  Forall (fun c => is_space c = true) s -> pysplit_go [] s = [].
Proof.
  induction s as [|c s IH]; intros Hs; [reflexivity|].
  inversion Hs as [|? ? Hc Hs']; subst. simpl. rewrite Hc. now apply IH.
Qed.

Lemma pysplit_go_nonnil_cur (s cur : pystr) : cur <> [] -> pysplit_go cur s <> [].
Proof.
  revert cur. induction s as [|c s IH]; intros cur Hcur; simpl.
  - destruct cur; [congruence|discriminate].
  - destruct (is_space c); [destruct cur; [congruence|discriminate]|].
    apply IH. destruct cur; discriminate.
Qed.

Lemma pysplit_go_nonnil (s cur : pystr) :
  Exists (fun c => is_space c = false) s -> pysplit_go cur s <> [].
Proof.
  revert cur. induction s as [|c s IH]; intros cur Hs; [inversion Hs|].
  simpl. destruct (is_space c) eqn:Hc.
  - inversion Hs as [? ? Hc'|? ? Hs']; subst; [congruence|].
    destruct cur; [now apply IH | discriminate].
  - apply pysplit_go_nonnil_cur. destruct cur; discriminate.
Qed.

Lemma reassembles_nonnil (L : Z) (cs ts : list pystr) :
  0 < L -> reassembles L cs ts -> ts <> [] -> cs <> [].
Proof.
  intros HL H Hts. destruct H as [|c cs ts H|pieces t cs ts Hlt Hn Hle Hcat H];
    [congruence | discriminate |].
  intros E. apply app_eq_nil in E as [-> ->]. simpl in Hcat. subst t.
  unfold pylen in Hlt. simpl in Hlt. lia.
Qed.

(* ------------------------------------------------------------------ *)
(** ** Completion client lemmas *)

Module CompletionFacts.
Import Completion.

Lemma lstrip_spaces (s : pystr) :
  Forall (fun c => is_space c = true) s -> lstrip s = [].
Proof.
  induction s as [|c s IH]; intros Hs; [reflexivity|].
  inversion Hs as [|? ? Hc Hs']; subst. simpl. rewrite Hc. now apply IH.
Qed.

Lemma attempt_once_blank (c : option pystr) :
  (c = None \/ exists s, c = Some s /\ Forall (fun ch => is_space ch = true) s) ->
  attempt_once (Response c) = Err (ValueError EMPTY_RESPONSE_MSG).
Proof.
  intros [-> | (s & -> & Hs)]; [reflexivity|].
  assert (E : strip s = []) by (unfold strip; now rewrite (lstrip_spaces s Hs)).
  destruct s as [|x s']; [reflexivity|]. cbn [attempt_once]. now rewrite E.
Qed.

Lemma attempt_once_ok (o : transport_outcome) (v : pystr) :
  attempt_once o = Ok v -> v <> [] /\ Exists (fun c => is_space c = false) v.
Proof.
  destruct o as [[content|]|e]; simpl; try discriminate.
  destruct content as [|x content']; [discriminate|].
  destruct (strip (x :: content')) as [|y ys] eqn:Hs; [discriminate|].
  intros E. injection E as <-. split; [discriminate|].
  rewrite <- Hs. apply strip_nonspace. congruence.
Qed.

Lemma retry_loop_ok (tr : nat -> transport_outcome) (R : nat) (todo : list nat)
    (le : option exn) (v : pystr) (evs : list event) :
  retry_loop tr R todo le = (Ok v, evs) -> exists i, attempt_once (tr i) = Ok v.
Proof.
  revert le evs. induction todo as [|a todo IH]; intros le evs; simpl; [discriminate|].
  destruct (attempt_once (tr a)) eqn:Ha.
  - intros E. injection E as -> _. now exists a.
  - destruct (retry_loop tr R todo (Some e)) as [r evs'] eqn:Hr.
    intros E. injection E as -> _. eapply IH. exact Hr.
Qed.

End CompletionFacts.

(* ------------------------------------------------------------------ *)
(** ** Rate limiter lemmas *)

Module RateLimitFacts.
Import RateLimit.

Lemma newer_than_spec (c t : Q) : newer_than c t = true <-> (c < t)%Q.
Proof.
  unfold newer_than. rewrite Bool.negb_true_iff.
  split; intros H.
  - apply Qnot_le_lt. intros Hle. apply Qle_bool_iff in Hle. congruence.
  - destruct (Qle_bool t c) eqn:E; [|reflexivity].
    apply Qle_bool_iff in E. exfalso. apply (Qlt_not_le c t); assumption.
Qed.

Lemma newer_true (c t : Q) : (c < t)%Q -> newer_than c t = true.
Proof. apply newer_than_spec. Qed.

Lemma newer_false (c t : Q) : (t <= c)%Q -> newer_than c t = false.
Proof.
  intros H. destruct (newer_than c t) eqn:E; [|reflexivity].
  apply newer_than_spec in E. exfalso. apply (Qlt_not_le c t); assumption.
Qed.

Lemma user_ts_insert (m : gmap Z (list Q)) (mx : Z) (u v : Z) (ts : list Q) :
  user_ts (mk_limiter mx (<[u := ts]> m)) v =
  if Z.eq_dec u v then ts else user_ts (mk_limiter mx m) v.
Proof.
  unfold user_ts. simpl. destruct (Z.eq_dec u v) as [->|Hne].
  - now rewrite lookup_insert_eq.
  - now rewrite lookup_insert_ne.
Qed.

(** [is_allowed] acts on the window of [u] only, as [window_step]. *)
Lemma is_allowed_window (now : Q) (u : Z) (rl : RateLimiter) (v : Z) :
  fst (is_allowed now u rl) = fst (window_step (max_per_minute rl) now (user_ts rl u)) /\
  max_per_minute (snd (is_allowed now u rl)) = max_per_minute rl /\
  user_ts (snd (is_allowed now u rl)) v =
    if Z.eq_dec u v then snd (window_step (max_per_minute rl) now (user_ts rl u))
    else user_ts rl v.
Proof.
  destruct rl as [mx m]. unfold is_allowed, window_step. simpl.
  destruct (mx <=? _); simpl; (split; [reflexivity|]); (split; [reflexivity|]).
  - rewrite user_ts_insert. reflexivity.
  - rewrite insert_insert_eq. rewrite user_ts_insert. reflexivity.
Qed.

Lemma run_window (u : Z) (calls : list (Q * Z)) (rl : RateLimiter) :
  answers_of u (fst (run rl calls)) =
  window_run (max_per_minute rl) (user_ts rl u) (calls_of u calls).
Proof.
  revert rl. induction calls as [|[now v] cs IH]; intros rl; [reflexivity|].
  destruct (is_allowed_window now v rl u) as (Hb & Hmax & Hts).
  simpl. destruct (is_allowed now v rl) as [b rl1] eqn:Hia.
  destruct (run rl1 cs) as [outs rl2] eqn:Hrun. simpl in *.
  unfold answers_of in *. unfold calls_of. simpl.
  specialize (IH rl1). rewrite Hrun in IH. simpl in IH.
  destruct (Z.eqb_spec v u) as [->|Hne]; simpl.
  - destruct (Z.eq_dec u u) as [_|]; [|congruence].
    destruct (window_step (max_per_minute rl) now (user_ts rl u)) as [b' ts'] eqn:Hw.
    simpl in *. subst b'. rewrite IH, Hmax, Hts. reflexivity.
  - destruct (Z.eq_dec v u) as [|_]; [congruence|]. rewrite IH, Hmax, Hts. reflexivity.
Qed.

End RateLimitFacts.

(* ------------------------------------------------------------------ *)
(** ** History lemmas *)

Module HistoryFacts.
Import Controller.

Lemma py_tail_length {A} (n : nat) (l : list A) : (length (py_tail n l) <= n)%nat.
Proof. unfold py_tail. rewrite length_skipn. lia. Qed.

Lemma py_tail_short {A} (n : nat) (l : list A) : (length l <= n)%nat -> py_tail n l = l.
Proof. intros H. unfold py_tail. now replace (length l - n)%nat with 0%nat by lia. Qed.

Lemma py_tail_app {A} (n : nat) (l x : list A) :
  py_tail n (py_tail n l ++ x) = py_tail n (l ++ x).
Proof.
  destruct (Nat.le_gt_cases (length l) n) as [Hle|Hgt].
  - now rewrite (py_tail_short n l Hle).
  - unfold py_tail. rewrite !length_app, length_skipn, !skipn_app, skipn_skipn, length_skipn.
    f_equal; f_equal; lia.
Qed.

End HistoryFacts.

(** The retry loop with [R = 3], unrolled. *)
Lemma call_deepseek_unrolled (tp : Completion.transport) (sp : Completion.system_prompt)
    (um : pystr) :
  Completion.call_deepseek tp sp um =
  match Completion.attempt_once (tp sp um 0%nat) with
  | Completion.Ok v => (Completion.Ok v, [Completion.Attempt 0])
  | Completion.Err _ =>
    match Completion.attempt_once (tp sp um 1%nat) with
    | Completion.Ok v =>
        (Completion.Ok v, [Completion.Attempt 0; Completion.Sleep 1; Completion.Attempt 1])
    | Completion.Err _ =>
      match Completion.attempt_once (tp sp um 2%nat) with
      | Completion.Ok v =>
          (Completion.Ok v, [Completion.Attempt 0; Completion.Sleep 1; Completion.Attempt 1;
                             Completion.Sleep 2; Completion.Attempt 2])
      | Completion.Err e2 =>
          (Completion.Err e2, [Completion.Attempt 0; Completion.Sleep 1; Completion.Attempt 1;
                               Completion.Sleep 2; Completion.Attempt 2])
      end
    end
  end.
Proof.
  unfold Completion.call_deepseek, Completion.DEEPSEEK_RETRY_ATTEMPTS.
  cbn [seq Completion.retry_loop].
  destruct (Completion.attempt_once (tp sp um 0%nat)); [reflexivity|].
  destruct (Completion.attempt_once (tp sp um 1%nat)); [reflexivity|].
  destruct (Completion.attempt_once (tp sp um 2%nat)); reflexivity.
Qed.

Lemma attempt_once_content (c : pystr) :
  strip c <> [] -> Completion.attempt_once (Completion.Response (Some c)) = Completion.Ok (strip c).
Proof.
  intros H. destruct c as [|x c']; [contradiction|].
  cbn [Completion.attempt_once]. destruct (strip (x :: c')); [congruence|reflexivity].
Qed.

(* ================================================================== *)
(** * Claims *)

(* ------------------------------------------------------------------ *)
(** ** Chunker *)

(** C7 (as stated, refuted): "if length(T) <= L the result is exactly [T]"
    fails for the empty text, which [split_into_chunks] maps to [] (the
    claim's own last clause), not to [[""]]. *)
Lemma split_into_chunks_C7_counterexample :
  ~ (forall (T : pystr) (L : Z), 0 < L -> pylen T <= L ->
       Chunker.split_into_chunks T L = Some [T]).
Proof.
  intros H. assert (E : Chunker.split_into_chunks [] 1 = Some [[]])
    by (apply H; unfold pylen; simpl; lia).
  discriminate E.
Qed.

(** C7 (amended): [split_into_chunks "" L] is [[]] for every [L]; for every
    text [T] and limit [L > 0] the call returns chunks each of length at
    most [L], and if [T] is non-empty with [length(T) <= L] the result is
    exactly [[T]]. *)
Theorem split_into_chunks_C7 :
  (forall L : Z, Chunker.split_into_chunks [] L = Some []) /\
  (forall (T : pystr) (L : Z), 0 < L ->
     exists cs, Chunker.split_into_chunks T L = Some cs /\
       Forall (fun c => pylen c <= L) cs /\
       (T <> [] -> pylen T <= L -> cs = [T])).
Proof.
  split; [reflexivity|].
  intros T L HL. destruct (ChunkerLoop.split_spec T L HL) as (cs & Hcs & Hle & _ & Hone).
  exists cs. auto.
Qed.

Lemma split_into_chunks_C7_witness :
  0 < 4 /\
  exists cs, Chunker.split_into_chunks (lit "ab cd  efghijk l mn") 4 = Some cs /\
    Forall (fun c => pylen c <= 4) cs /\
    (lit "ab cd  efghijk l mn" <> [] -> pylen (lit "ab cd  efghijk l mn") <= 4 ->
     cs = [lit "ab cd  efghijk l mn"]).
Proof.
  split; [lia|]. apply (proj2 split_into_chunks_C7). lia.
Defined.

(** C8: for every text [T] and limit [L > 0], the chunks of
    [split_into_chunks T L] give back the whitespace-delimited tokens of
    [T] in order: packed chunks re-split on whitespace, and each token
    longer than [L] as its [ceil(len/L)] character slices, each at most
    [L] long, concatenating to the token ([reassembles]); the slicing of
    any token longer than [L] has these properties. *)
Theorem split_into_chunks_C8 (T : pystr) (L : Z) :
  0 < L ->
  (exists cs, Chunker.split_into_chunks T L = Some cs /\ reassembles L cs (pysplit T)) /\
  (forall t : pystr, L < pylen t ->
     exists pieces, Chunker.char_slices t L = Some pieces /\
       Z.of_nat (length pieces) = (pylen t + L - 1) / L /\
       Forall (fun p => pylen p <= L) pieces /\ concat pieces = t).
Proof.
  intros HL. split.
  - destruct (ChunkerLoop.split_spec T L HL) as (cs & Hcs & _ & Hr & _). eauto.
  - intros t Ht. now apply ChunkerLoop.char_slices_spec.
Qed.

Lemma split_into_chunks_C8_witness :
  0 < 4 /\
  (exists cs, Chunker.split_into_chunks (lit "ab cd  efghijk l mn") 4 = Some cs /\
     reassembles 4 cs (pysplit (lit "ab cd  efghijk l mn"))) /\
  (forall t : pystr, 4 < pylen t ->
     exists pieces, Chunker.char_slices t 4 = Some pieces /\
       Z.of_nat (length pieces) = (pylen t + 4 - 1) / 4 /\
       Forall (fun p => pylen p <= 4) pieces /\ concat pieces = t).
Proof.
  split; [lia|]. apply split_into_chunks_C8. lia.
Defined.

(** C10: a non-empty text made only of whitespace and longer than
    [max_length] is split into no chunk at all; with a positive limit, a
    text holding a non-whitespace character always gives at least one. *)
Theorem split_into_chunks_C10 :
  (forall (T : pystr) (L : Z), T <> [] -> Forall (fun c => is_space c = true) T ->
     L < pylen T -> Chunker.split_into_chunks T L = Some []) /\
  (forall (T : pystr) (L : Z), 0 < L -> Exists (fun c => is_space c = false) T ->
     exists cs, Chunker.split_into_chunks T L = Some cs /\ cs <> []).
Proof.
  split.
  - intros T L Hne Hsp Hlt. unfold Chunker.split_into_chunks.
    destruct T as [|x T']; [congruence|].
    rewrite (proj2 (Z.leb_gt _ _) Hlt).
    unfold pysplit. rewrite pysplit_go_spaces by exact Hsp. reflexivity.
  - intros T L HL Hex.
    destruct (ChunkerLoop.split_spec T L HL) as (cs & Hcs & _ & Hr & _).
    exists cs. split; [exact Hcs|].
    eapply reassembles_nonnil; [exact HL | exact Hr |].
    apply pysplit_go_nonnil. exact Hex.
Qed.

Lemma split_into_chunks_C10_witness :
  ([9; 32; 10; 32; 32] <> [] /\ Forall (fun c => is_space c = true) [9; 32; 10; 32; 32] /\
   3 < pylen [9; 32; 10; 32; 32] /\ Chunker.split_into_chunks [9; 32; 10; 32; 32] 3 = Some []) /\
  (0 < 3 /\ Exists (fun c => is_space c = false) (lit "  abcdef ") /\
   exists cs, Chunker.split_into_chunks (lit "  abcdef ") 3 = Some cs /\ cs <> []).
Proof.
  split.
  - split; [discriminate|]. split; [repeat constructor|]. split; [vm_compute; reflexivity|].
    apply (proj1 split_into_chunks_C10); [discriminate | repeat constructor | vm_compute; reflexivity].
  - assert (Hx : Exists (fun c => is_space c = false) (lit "  abcdef "))
      by (cbn; do 2 apply Exists_cons_tl; apply Exists_cons_hd; reflexivity).
    split; [lia|]. split; [exact Hx|].
    apply (proj2 split_into_chunks_C10); [lia | exact Hx].
Defined.

(* ------------------------------------------------------------------ *)
(** ** Completion client *)

(** C3: [call_deepseek] makes at most [R = 3] attempts. Either some attempt
    [k < 3] succeeds after attempts [0 .. k-1] failed (with any exception
    of the transport or of the empty-response check), and its value is
    returned after the trace [Attempt 0; Sleep 2^0; ...; Attempt k]; or all
    three fail and the error of the last attempt is raised after
    [Attempt 0; Sleep 1; Attempt 1; Sleep 2; Attempt 2]: a sleep of
    [2^attempt] seconds between consecutive attempts, none after the last.
    A transport failing twice then answering yields that answer on the
    third attempt. *)
Theorem call_deepseek_C3 :
  (forall (tp : Completion.transport) (sp : Completion.system_prompt) (um : pystr),
    (exists (k : nat) (v : pystr),
       (k < Completion.DEEPSEEK_RETRY_ATTEMPTS)%nat /\
       (forall i : nat, (i < k)%nat -> exists e, Completion.attempt_once (tp sp um i) = Completion.Err e) /\
       Completion.attempt_once (tp sp um k) = Completion.Ok v /\
       Completion.call_deepseek tp sp um = (Completion.Ok v, Completion.backoff_trace k)) \/
    ((forall i : nat, (i < Completion.DEEPSEEK_RETRY_ATTEMPTS)%nat ->
        exists e, Completion.attempt_once (tp sp um i) = Completion.Err e) /\
     exists e, Completion.attempt_once (tp sp um (Completion.DEEPSEEK_RETRY_ATTEMPTS - 1)%nat)
                 = Completion.Err e /\
       Completion.call_deepseek tp sp um =
         (Completion.Err e, Completion.backoff_trace (Completion.DEEPSEEK_RETRY_ATTEMPTS - 1))))
  /\
  (forall (content : pystr) (sp : Completion.system_prompt) (um : pystr),
    strip content <> [] ->
    Completion.call_deepseek (Completion.flaky_transport content) sp um =
      (Completion.Ok (strip content),
       [Completion.Attempt 0; Completion.Sleep 1; Completion.Attempt 1;
        Completion.Sleep 2; Completion.Attempt 2])).
Proof.
  split.
  - intros tp sp um. rewrite call_deepseek_unrolled.
    destruct (Completion.attempt_once (tp sp um 0%nat)) as [v0|e0] eqn:E0.
    { left. exists 0%nat, v0. split; [unfold Completion.DEEPSEEK_RETRY_ATTEMPTS; lia|].
      split; [intros i Hi; lia|]. split; [exact E0|reflexivity]. }
    destruct (Completion.attempt_once (tp sp um 1%nat)) as [v1|e1] eqn:E1.
    { left. exists 1%nat, v1. split; [unfold Completion.DEEPSEEK_RETRY_ATTEMPTS; lia|].
      split; [intros i Hi; destruct i as [|i]; [eauto|lia]|].
      split; [exact E1|reflexivity]. }
    destruct (Completion.attempt_once (tp sp um 2%nat)) as [v2|e2] eqn:E2.
    { left. exists 2%nat, v2. split; [unfold Completion.DEEPSEEK_RETRY_ATTEMPTS; lia|].
      split; [intros i Hi; destruct i as [|[|i]]; [eauto|eauto|lia]|].
      split; [exact E2|reflexivity]. }
    right. split.
    + intros i Hi. unfold Completion.DEEPSEEK_RETRY_ATTEMPTS in Hi.
      destruct i as [|[|[|i]]]; [eauto|eauto|eauto|lia].
    + exists e2. split; [exact E2|reflexivity].
  - intros content sp um Hc. rewrite call_deepseek_unrolled.
    unfold Completion.flaky_transport. cbn [Nat.ltb Nat.leb].
    rewrite attempt_once_content by exact Hc. reflexivity.
Qed.

Lemma call_deepseek_C3_witness :
  strip (lit "Write a REST API in Go") <> [] /\
  Completion.call_deepseek (Completion.flaky_transport (lit "Write a REST API in Go"))
      Completion.RefinementSystemPrompt (lit "make it shorter") =
    (Completion.Ok (strip (lit "Write a REST API in Go")),
     [Completion.Attempt 0; Completion.Sleep 1; Completion.Attempt 1;
      Completion.Sleep 2; Completion.Attempt 2]).
Proof.
  assert (H : strip (lit "Write a REST API in Go") <> []) by (vm_compute; discriminate).
  split; [exact H|]. apply (proj2 call_deepseek_C3). exact H.
Defined.

(** C4: an empty or whitespace-only response body (or a missing one) is
    turned into [ValueError] by the attempt, a transport that always
    answers with such a body makes [call_deepseek] raise that
    [ValueError] after all three attempts, and a value returned by
    [call_deepseek] is never empty nor whitespace-only. *)
Theorem call_deepseek_C4 :
  (forall c : option pystr,
     (c = None \/ exists s, c = Some s /\ Forall (fun ch => is_space ch = true) s) ->
     Completion.attempt_once (Completion.Response c) =
       Completion.Err (Completion.ValueError Completion.EMPTY_RESPONSE_MSG)) /\
  (forall (tp : Completion.transport) (sp : Completion.system_prompt) (um : pystr),
     (forall i : nat, exists s, tp sp um i = Completion.Response (Some s) /\
                               Forall (fun ch => is_space ch = true) s) ->
     Completion.call_deepseek tp sp um =
       (Completion.Err (Completion.ValueError Completion.EMPTY_RESPONSE_MSG),
        Completion.backoff_trace 2)) /\
  (forall (tp : Completion.transport) (sp : Completion.system_prompt) (um v : pystr)
          (evs : list Completion.event),
     Completion.call_deepseek tp sp um = (Completion.Ok v, evs) ->
     v <> [] /\ Exists (fun c => is_space c = false) v).
Proof.
  split; [|split].
  - apply CompletionFacts.attempt_once_blank.
  - intros tp sp um Hall. rewrite call_deepseek_unrolled.
    assert (Hb : forall i, Completion.attempt_once (tp sp um i) =
                           Completion.Err (Completion.ValueError Completion.EMPTY_RESPONSE_MSG)).
    { intros i. destruct (Hall i) as (s & -> & Hs).
      apply CompletionFacts.attempt_once_blank. right. eauto. }
    rewrite !Hb. reflexivity.
  - intros tp sp um v evs H.
    destruct (CompletionFacts.retry_loop_ok _ _ _ _ _ _ H) as [i Hi].
    exact (CompletionFacts.attempt_once_ok _ _ Hi).
Qed.

Lemma call_deepseek_C4_witness :
  ((Some [32; 10] = None \/ exists s, Some [32; 10] = Some s /\ Forall (fun ch => is_space ch = true) s) /\
   Completion.attempt_once (Completion.Response (Some [32; 10])) =
     Completion.Err (Completion.ValueError Completion.EMPTY_RESPONSE_MSG)) /\
  Completion.call_deepseek (fun _ _ _ => Completion.Response (Some [])) Completion.RefinementSystemPrompt [] =
    (Completion.Err (Completion.ValueError Completion.EMPTY_RESPONSE_MSG), Completion.backoff_trace 2) /\
  (Completion.call_deepseek (Completion.flaky_transport (lit "ok")) Completion.RefinementSystemPrompt [] =
     (Completion.Ok (lit "ok"), Completion.backoff_trace 2) /\
   lit "ok" <> [] /\ Exists (fun c => is_space c = false) (lit "ok")).
Proof.
  assert (Hws : Some [32; 10] = None \/ exists s, Some [32; 10] = Some s /\
                  Forall (fun ch => is_space ch = true) s)
    by (right; eexists; split; [reflexivity | repeat constructor]).
  split; [split; [exact Hws | apply (proj1 call_deepseek_C4); exact Hws]|].
  split.
  - apply (proj1 (proj2 call_deepseek_C4)). intros i. exists []. split; constructor.
  - assert (Hok : Completion.call_deepseek (Completion.flaky_transport (lit "ok"))
                    Completion.RefinementSystemPrompt [] =
                  (Completion.Ok (lit "ok"), Completion.backoff_trace 2)) by reflexivity.
    split; [exact Hok|]. exact (proj2 (proj2 call_deepseek_C4) _ _ _ _ _ Hok).
Defined.

(* ------------------------------------------------------------------ *)
(** ** Rate limiter *)

Ltac decide_windows :=
  simpl;
  repeat (match goal with
          | |- context [RateLimit.newer_than ?c ?t] =>
              first [ rewrite (RateLimitFacts.newer_true c t) by lra
                    | rewrite (RateLimitFacts.newer_false c t) by lra ]
          end; simpl).

(** C5 (as stated, refuted): the claim purges only timestamps strictly
    older than [now - 60] ([is_allowed_spec]); [is_allowed] also purges a
    timestamp exactly 60 seconds old ([t > cutoff] keeps only newer ones).
    Five admissions at time 0 for user 7, then a call at time 60: the
    code admits it, the claim's rule refuses it. *)
Lemma is_allowed_C5_counterexample :
  ~ (forall (now : Q) (u : Z) (rl : RateLimit.RateLimiter),
       RateLimit.is_allowed now u rl = RateLimit.is_allowed_spec now u rl).
Proof.
  intros H.
  specialize (H 60%Q 7 (snd (RateLimit.run RateLimit.rate_limiter0
                                [(0%Q, 7); (0%Q, 7); (0%Q, 7); (0%Q, 7); (0%Q, 7)]))).
  apply (f_equal fst) in H. vm_compute in H. discriminate H.
Qed.

(** C5 (amended): each call for user [u] keeps, in order, the timestamps
    of [u] strictly newer than [now - 60] (purging those at or before
    [now - 60]); it answers [true] exactly when fewer than the limit
    remain, and records [now] only then; other users' windows are
    untouched. With limit 5 and a fresh window, five calls within one
    second are admitted, a sixth less than 60 seconds after the first is
    refused, and a call 61 or more seconds after the sixth is admitted. *)
Theorem is_allowed_C5 :
  (forall (now : Q) (u : Z) (rl : RateLimit.RateLimiter),
     let kept := List.filter (RateLimit.newer_than (now - 60)%Q) (RateLimit.user_ts rl u) in
     (forall t : Q, RateLimit.newer_than (now - 60)%Q t = true <-> (now - 60 < t)%Q) /\
     (fst (RateLimit.is_allowed now u rl) = true <->
        Z.of_nat (length kept) < RateLimit.max_per_minute rl) /\
     RateLimit.user_ts (snd (RateLimit.is_allowed now u rl)) u =
        (if fst (RateLimit.is_allowed now u rl) then kept ++ [now] else kept) /\
     (forall v : Z, v <> u ->
        RateLimit.user_ts (snd (RateLimit.is_allowed now u rl)) v = RateLimit.user_ts rl v)) /\
  (forall (u : Z) (rl : RateLimit.RateLimiter) (t1 t2 t3 t4 t5 t6 t7 : Q),
     RateLimit.max_per_minute rl = 5 -> RateLimit.user_ts rl u = [] ->
     (t1 <= t2)%Q -> (t2 <= t3)%Q -> (t3 <= t4)%Q -> (t4 <= t5)%Q -> (t5 <= t1 + 1)%Q ->
     (t5 <= t6)%Q -> (t6 < t1 + 60)%Q -> (t6 + 61 <= t7)%Q ->
     RateLimit.answers_of u (fst (RateLimit.run rl
        [(t1, u); (t2, u); (t3, u); (t4, u); (t5, u); (t6, u); (t7, u)])) =
     [true; true; true; true; true; false; true]).
Proof.
  split.
  - intros now u rl kept.
    destruct (RateLimitFacts.is_allowed_window now u rl u) as (Hb & _ & Hts).
    split; [intros t; apply RateLimitFacts.newer_than_spec|].
    rewrite Hts, Hb. destruct (Z.eq_dec u u) as [_|]; [|congruence].
    unfold RateLimit.window_step. fold kept.
    split; [|split].
    + destruct (Z.leb_spec (RateLimit.max_per_minute rl) (Z.of_nat (length kept)));
        simpl; split; intros; lia || congruence.
    + destruct (RateLimit.max_per_minute rl <=? Z.of_nat (length kept)); reflexivity.
    + intros v Hv. destruct (RateLimitFacts.is_allowed_window now u rl v) as (_ & _ & Hv').
      rewrite Hv'. destruct (Z.eq_dec u v); [congruence|reflexivity].
  - intros u rl t1 t2 t3 t4 t5 t6 t7 Hmax Hts H12 H23 H34 H45 H51 H56 H61 H67.
    rewrite RateLimitFacts.run_window, Hmax, Hts.
    unfold RateLimit.calls_of. cbn [List.filter snd]. rewrite Z.eqb_refl.
    cbn [RateLimit.window_run]. unfold RateLimit.window_step.
    decide_windows. reflexivity.
Qed.

Lemma is_allowed_C5_witness :
  (RateLimit.max_per_minute RateLimit.rate_limiter0 = 5 /\
   RateLimit.user_ts RateLimit.rate_limiter0 42 = [] /\
   RateLimit.answers_of 42 (fst (RateLimit.run RateLimit.rate_limiter0
     [(0%Q, 42); (0.2%Q, 42); (0.4%Q, 42); (0.6%Q, 42); (0.8%Q, 42); (30%Q, 42); (91%Q, 42)])) =
   [true; true; true; true; true; false; true]) /\
  (RateLimit.newer_than (100 - 60)%Q 41 = true <-> (100 - 60 < 41)%Q).
Proof.
  split.
  - split; [reflexivity|]. split; [reflexivity|].
    apply (proj2 is_allowed_C5); [reflexivity | reflexivity | lra ..].
  - exact (proj1 (proj1 is_allowed_C5 100%Q 42 RateLimit.rate_limiter0) 41%Q).
Defined.

(** C9: the answers [is_allowed] gives to user [u] depend only on [u]'s
    own calls (times and order) and [u]'s window: two runs whose call
    sequences agree on [u]'s subsequence, from limiters with the same
    limit and the same window for [u], give [u] the same answers, however
    other users' calls are interleaved. *)
Theorem run_C9 (u : Z) (c1 c2 : list (Q * Z)) (rl1 rl2 : RateLimit.RateLimiter) :
  RateLimit.max_per_minute rl1 = RateLimit.max_per_minute rl2 ->
  RateLimit.user_ts rl1 u = RateLimit.user_ts rl2 u ->
  RateLimit.calls_of u c1 = RateLimit.calls_of u c2 ->
  RateLimit.answers_of u (fst (RateLimit.run rl1 c1)) =
  RateLimit.answers_of u (fst (RateLimit.run rl2 c2)).
Proof.
  intros Hmax Hts Hcalls. rewrite !RateLimitFacts.run_window. congruence.
Qed.

Lemma run_C9_witness :
  RateLimit.calls_of 7 [(0%Q, 7); (1%Q, 8); (1%Q, 8); (2%Q, 7)] =
    RateLimit.calls_of 7 [(0%Q, 9); (0%Q, 7); (2%Q, 7); (3%Q, 9)] /\
  RateLimit.answers_of 7 (fst (RateLimit.run RateLimit.rate_limiter0
      [(0%Q, 7); (1%Q, 8); (1%Q, 8); (2%Q, 7)])) =
  RateLimit.answers_of 7 (fst (RateLimit.run RateLimit.rate_limiter0
      [(0%Q, 9); (0%Q, 7); (2%Q, 7); (3%Q, 9)])).
Proof.
  assert (H : RateLimit.calls_of 7 [(0%Q, 7); (1%Q, 8); (1%Q, 8); (2%Q, 7)] =
              RateLimit.calls_of 7 [(0%Q, 9); (0%Q, 7); (2%Q, 7); (3%Q, 9)]) by reflexivity.
  split; [exact H|]. apply run_C9; [reflexivity | reflexivity | exact H].
Defined.

(* ------------------------------------------------------------------ *)
(** ** Conversation controller *)

Module ControllerFacts.
Import Completion RateLimit Controller.

Lemma handle_description_ok (tp : transport) (del : delete_outcome) (sent : send_outcome)
    (now : Q) (uid : Z) (text : option pystr) (ses : session) (rl rl1 : RateLimiter)
    (cat : Category) (result : pystr) :
  category ses = Some cat -> message_text text <> [] ->
  is_allowed now uid rl = (true, rl1) ->
  fst (call_deepseek tp (SystemPrompt cat) (message_text text)) = Ok result ->
  (forall e, del <> DeleteFailed e) ->
  handle_description tp del sent now uid text ses rl =
    (match sent with SentAll => PROMPT_SHOWN | _ => MAIN_MENU end,
     mk_session (category ses)
       (match sent with ResultSendFailed _ => last_prompt ses | _ => Some result end)
       (match sent with ResultSendFailed _ => last_category ses | _ => Some cat end)
       (match sent with
        | ResultSendFailed _ => original_description ses
        | _ => Some (message_text text)
        end)
       (append_history (history ses) cat result),
     rl1).
Proof.
  intros Hcat Htext Hrl Hcall Hdel. unfold handle_description. rewrite Hcat.
  destruct (message_text text) as [|x xs] eqn:Em; [congruence|].
  rewrite Hrl. simpl negb. cbv iota. rewrite Hcall.
  destruct del as [| |e]; [destruct sent; reflexivity|destruct sent; reflexivity|].
  exfalso. exact (Hdel e eq_refl).
Qed.

Lemma handle_refinement_history (tp : transport) (del : delete_outcome) (now : Q) (uid : Z)
    (text : option pystr) (ses ses' : session) (rl rl' : RateLimiter) (st : ConversationState) :
  handle_refinement tp del now uid text ses rl = (st, ses', rl') -> history ses' = history ses.
Proof.
  unfold handle_refinement.
  destruct (last_prompt ses) as [[|x xs]|]; [congruence| |congruence].
  destruct (message_text text) as [|y ys]; [congruence|].
  destruct (is_allowed now uid rl) as [[|] rl1]; [|simpl; congruence].
  simpl negb. cbv iota.
  destruct (fst (call_deepseek tp RefinementSystemPrompt _)); [|congruence].
  destruct del; intros E; injection E as _ <- _; reflexivity.
Qed.

Lemma append_history_fold (h0 : list history_entry) (gens : list (Category * pystr)) :
  (length h0 <= HISTORY_MAX_ITEMS)%nat ->
  fold_left (fun h g => append_history h (fst g) (snd g)) gens h0 =
  py_tail HISTORY_MAX_ITEMS (h0 ++ map (fun g => mk_entry (fst g) (preview (snd g))) gens).
Proof.
  revert h0. induction gens as [|g gs IH]; intros h0 Hlen; simpl.
  - rewrite app_nil_r. symmetry. now apply HistoryFacts.py_tail_short.
  - rewrite IH by apply HistoryFacts.py_tail_length.
    unfold append_history. rewrite HistoryFacts.py_tail_app, <- app_assoc. reflexivity.
Qed.

End ControllerFacts.

(** C1 (as stated, refuted): a refinement whose Completion Client call
    succeeds does not append a HistoryEntry. From a session with an
    empty history, [handle_refinement] reaches [PROMPT_SHOWN] after a
    successful call and the history is still empty, so it is not the old
    history with any entry appended and pruned to the last 5. *)
Lemma handle_refinement_C1_counterexample :
  fst (Completion.call_deepseek (Completion.flaky_transport (lit "Write a short REST API in Go"))
         Completion.RefinementSystemPrompt
         (Controller.refinement_message (lit "Write a REST API in Go") (strip (lit "make it shorter")))) =
    Completion.Ok (lit "Write a short REST API in Go") /\
  Controller.handle_refinement (Completion.flaky_transport (lit "Write a short REST API in Go"))
    Controller.Deleted 0%Q 1 (Some (lit "make it shorter"))
    (Controller.mk_session (Some Completion.CODE) (Some (lit "Write a REST API in Go"))
       (Some Completion.CODE) (Some (lit "a REST API in Go")) [])
    RateLimit.rate_limiter0 =
  (Controller.PROMPT_SHOWN,
   Controller.mk_session (Some Completion.CODE) (Some (lit "Write a short REST API in Go"))
     (Some Completion.CODE) (Some (lit "a REST API in Go")) [],
   snd (RateLimit.is_allowed 0%Q 1 RateLimit.rate_limiter0)) /\
  ~ (exists e : Controller.history_entry,
       ([] : list Controller.history_entry) = Controller.py_tail Controller.HISTORY_MAX_ITEMS ([] ++ [e])).
Proof.
  split; [vm_compute; reflexivity|]. split; [vm_compute; reflexivity|].
  intros [e He]. discriminate He.
Qed.

(** C1 (amended): the initial-generation transition [handle_description]
    that reaches the Completion Client (a category is stored, the text is
    not blank, the rate limiter admits the call), gets a result, and whose
    best-effort deletion of the status message raises nothing other than
    [BadRequest], appends the HistoryEntry of the result and prunes the
    history to the last 5, whether or not the replies that follow succeed;
    it ends in [PROMPT_SHOWN] when they all succeed and in [MAIN_MENU]
    when one raises. The refinement transition [handle_refinement] never
    changes the history. *)
Theorem handle_description_C1 :
  (forall (tp : Completion.transport) (del : Controller.delete_outcome)
          (sent : Controller.send_outcome) (now : Q) (uid : Z)
          (text : option pystr) (ses : Controller.session) (rl rl1 : RateLimit.RateLimiter)
          (cat : Completion.Category) (result : pystr),
     Controller.category ses = Some cat -> Controller.message_text text <> [] ->
     RateLimit.is_allowed now uid rl = (true, rl1) ->
     fst (Completion.call_deepseek tp (Completion.SystemPrompt cat) (Controller.message_text text))
       = Completion.Ok result ->
     (forall e, del <> Controller.DeleteFailed e) ->
     exists st ses', Controller.handle_description tp del sent now uid text ses rl =
                    (st, ses', rl1) /\
       Controller.history ses' =
         Controller.py_tail Controller.HISTORY_MAX_ITEMS
           (Controller.history ses ++ [Controller.mk_entry cat (Controller.preview result)]) /\
       st = match sent with
            | Controller.SentAll => Controller.PROMPT_SHOWN
            | _ => Controller.MAIN_MENU
            end) /\
  (forall (tp : Completion.transport) (del : Controller.delete_outcome) (now : Q) (uid : Z)
          (text : option pystr) (ses ses' : Controller.session) (rl rl' : RateLimit.RateLimiter)
          (st : Controller.ConversationState),
     Controller.handle_refinement tp del now uid text ses rl = (st, ses', rl') ->
     Controller.history ses' = Controller.history ses).
Proof.
  split.
  - intros tp del sent now uid text ses rl rl1 cat result Hcat Htext Hrl Hcall Hdel.
    do 2 eexists. split; [eapply ControllerFacts.handle_description_ok; eauto|].
    split; reflexivity.
  - intros. eapply ControllerFacts.handle_refinement_history. eauto.
Qed.

Lemma handle_description_C1_witness :
  (Controller.category (Controller.mk_session (Some Completion.CODE) None None None []) =
     Some Completion.CODE /\
   Controller.message_text (Some (lit "a REST API in Go")) <> [] /\
   RateLimit.is_allowed 0%Q 1 RateLimit.rate_limiter0 =
     (true, snd (RateLimit.is_allowed 0%Q 1 RateLimit.rate_limiter0)) /\
   fst (Completion.call_deepseek (Completion.flaky_transport (lit "Write a REST API in Go"))
          (Completion.SystemPrompt Completion.CODE)
          (Controller.message_text (Some (lit "a REST API in Go")))) =
     Completion.Ok (lit "Write a REST API in Go") /\
   exists st ses', Controller.handle_description
                  (Completion.flaky_transport (lit "Write a REST API in Go"))
                  Controller.Deleted
                  (Controller.ResultSendFailed (Completion.TransportError (lit "Timed out")))
                  0%Q 1 (Some (lit "a REST API in Go"))
                  (Controller.mk_session (Some Completion.CODE) None None None [])
                  RateLimit.rate_limiter0 =
                (st, ses', snd (RateLimit.is_allowed 0%Q 1 RateLimit.rate_limiter0)) /\
     Controller.history ses' =
       Controller.py_tail Controller.HISTORY_MAX_ITEMS
         ([] ++ [Controller.mk_entry Completion.CODE
                   (Controller.preview (lit "Write a REST API in Go"))]) /\
     st = match Controller.ResultSendFailed (Completion.TransportError (lit "Timed out")) with
          | Controller.SentAll => Controller.PROMPT_SHOWN
          | _ => Controller.MAIN_MENU
          end) /\
  Controller.history (snd (fst (Controller.handle_refinement
      (Completion.flaky_transport (lit "ok")) Controller.Deleted 0%Q 1 (Some (lit "shorter"))
      (Controller.mk_session (Some Completion.CODE) (Some (lit "p")) None None [])
      RateLimit.rate_limiter0))) = [].
Proof.
  assert (H1 : Controller.category (Controller.mk_session (Some Completion.CODE) None None None []) =
                 Some Completion.CODE) by reflexivity.
  assert (H2 : Controller.message_text (Some (lit "a REST API in Go")) <> [])
    by (vm_compute; discriminate).
  assert (H3 : RateLimit.is_allowed 0%Q 1 RateLimit.rate_limiter0 =
                 (true, snd (RateLimit.is_allowed 0%Q 1 RateLimit.rate_limiter0)))
    by (vm_compute; reflexivity).
  assert (H4 : fst (Completion.call_deepseek (Completion.flaky_transport (lit "Write a REST API in Go"))
                      (Completion.SystemPrompt Completion.CODE)
                      (Controller.message_text (Some (lit "a REST API in Go")))) =
                 Completion.Ok (lit "Write a REST API in Go")) by (vm_compute; reflexivity).
  split.
  - do 4 (split; [assumption|]).
    apply (proj1 handle_description_C1); [exact H1 | exact H2 | exact H3 | exact H4 |].
    intros e; discriminate.
  - destruct (Controller.handle_refinement
      (Completion.flaky_transport (lit "ok")) Controller.Deleted 0%Q 1 (Some (lit "shorter"))
      (Controller.mk_session (Some Completion.CODE) (Some (lit "p")) None None [])
      RateLimit.rate_limiter0) as [[st ses'] rl'] eqn:E.
    simpl. rewrite (proj2 handle_description_C1 _ _ _ _ _ _ _ _ _ _ E). reflexivity.
Defined.

(** C2: when the Completion Client raises (after its retries), the
    session is left recoverable: the first-time generation returns to
    [MAIN_MENU] with the session unchanged, the refinement stays in
    [PROMPT_SHOWN] with the session, hence the stored [last_prompt],
    unchanged. *)
Theorem generation_failure_C2 :
  (forall (tp : Completion.transport) (del : Controller.delete_outcome)
          (sent : Controller.send_outcome) (now : Q) (uid : Z)
          (text : option pystr) (ses : Controller.session) (rl rl1 : RateLimit.RateLimiter)
          (cat : Completion.Category) (e : Completion.exn),
     Controller.category ses = Some cat -> Controller.message_text text <> [] ->
     RateLimit.is_allowed now uid rl = (true, rl1) ->
     fst (Completion.call_deepseek tp (Completion.SystemPrompt cat) (Controller.message_text text))
       = Completion.Err e ->
     Controller.handle_description tp del sent now uid text ses rl =
       (Controller.MAIN_MENU, ses, rl1)) /\
  (forall (tp : Completion.transport) (del : Controller.delete_outcome) (now : Q) (uid : Z)
          (text : option pystr) (ses : Controller.session) (rl rl1 : RateLimit.RateLimiter)
          (last : pystr) (e : Completion.exn),
     Controller.last_prompt ses = Some last -> last <> [] -> Controller.message_text text <> [] ->
     RateLimit.is_allowed now uid rl = (true, rl1) ->
     fst (Completion.call_deepseek tp Completion.RefinementSystemPrompt
            (Controller.refinement_message last (Controller.message_text text)))
       = Completion.Err e ->
     Controller.handle_refinement tp del now uid text ses rl = (Controller.PROMPT_SHOWN, ses, rl1)).
Proof.
  split.
  - intros tp del sent now uid text ses rl rl1 cat e Hcat Htext Hrl Hcall.
    unfold Controller.handle_description. rewrite Hcat.
    destruct (Controller.message_text text) eqn:Em; [congruence|].
    rewrite Hrl. simpl negb. cbv iota. now rewrite Hcall.
  - intros tp del now uid text ses rl rl1 last e Hlast Hne Htext Hrl Hcall.
    unfold Controller.handle_refinement. rewrite Hlast.
    destruct last as [|x xs]; [congruence|].
    destruct (Controller.message_text text) eqn:Em; [congruence|].
    rewrite Hrl. simpl negb. cbv iota. now rewrite Hcall.
Qed.

Lemma generation_failure_C2_witness :
  (Controller.category (Controller.mk_session (Some Completion.IMAGE) None None None []) =
     Some Completion.IMAGE /\
   Controller.message_text (Some (lit " a cat ")) <> [] /\
   RateLimit.is_allowed 5%Q 3 RateLimit.rate_limiter0 =
     (true, snd (RateLimit.is_allowed 5%Q 3 RateLimit.rate_limiter0)) /\
   fst (Completion.call_deepseek
          (fun _ _ _ => Completion.Raised (Completion.TransportError (lit "Connection error.")))
          (Completion.SystemPrompt Completion.IMAGE) (Controller.message_text (Some (lit " a cat "))))
     = Completion.Err (Completion.TransportError (lit "Connection error.")) /\
   Controller.handle_description
     (fun _ _ _ => Completion.Raised (Completion.TransportError (lit "Connection error.")))
     Controller.Deleted Controller.SentAll 5%Q 3 (Some (lit " a cat "))
     (Controller.mk_session (Some Completion.IMAGE) None None None []) RateLimit.rate_limiter0 =
   (Controller.MAIN_MENU, Controller.mk_session (Some Completion.IMAGE) None None None [],
    snd (RateLimit.is_allowed 5%Q 3 RateLimit.rate_limiter0))) /\
  (Controller.last_prompt (Controller.mk_session (Some Completion.IMAGE) (Some (lit "A cat")) None None []) =
     Some (lit "A cat") /\
   lit "A cat" <> [] /\
   Controller.message_text (Some (lit "shorter")) <> [] /\
   RateLimit.is_allowed 5%Q 3 RateLimit.rate_limiter0 =
     (true, snd (RateLimit.is_allowed 5%Q 3 RateLimit.rate_limiter0)) /\
   fst (Completion.call_deepseek
          (fun _ _ _ => Completion.Raised (Completion.TransportError (lit "Request timed out.")))
          Completion.RefinementSystemPrompt
          (Controller.refinement_message (lit "A cat") (Controller.message_text (Some (lit "shorter")))))
     = Completion.Err (Completion.TransportError (lit "Request timed out.")) /\
   Controller.handle_refinement
     (fun _ _ _ => Completion.Raised (Completion.TransportError (lit "Request timed out.")))
     Controller.Deleted 5%Q 3 (Some (lit "shorter"))
     (Controller.mk_session (Some Completion.IMAGE) (Some (lit "A cat")) None None [])
     RateLimit.rate_limiter0 =
   (Controller.PROMPT_SHOWN,
    Controller.mk_session (Some Completion.IMAGE) (Some (lit "A cat")) None None [],
    snd (RateLimit.is_allowed 5%Q 3 RateLimit.rate_limiter0))).
Proof.
  split.
  - assert (H1 : Controller.category (Controller.mk_session (Some Completion.IMAGE) None None None []) =
                   Some Completion.IMAGE) by reflexivity.
    assert (H2 : Controller.message_text (Some (lit " a cat ")) <> []) by (vm_compute; discriminate).
    assert (H3 : RateLimit.is_allowed 5%Q 3 RateLimit.rate_limiter0 =
                   (true, snd (RateLimit.is_allowed 5%Q 3 RateLimit.rate_limiter0)))
      by (vm_compute; reflexivity).
    assert (H4 : fst (Completion.call_deepseek
          (fun _ _ _ => Completion.Raised (Completion.TransportError (lit "Connection error.")))
          (Completion.SystemPrompt Completion.IMAGE) (Controller.message_text (Some (lit " a cat "))))
        = Completion.Err (Completion.TransportError (lit "Connection error.")))
      by (vm_compute; reflexivity).
    do 4 (split; [assumption|]).
    exact (proj1 generation_failure_C2 _ _ _ _ _ _ _ _ _ _ _ H1 H2 H3 H4).
  - assert (H1 : Controller.last_prompt
                   (Controller.mk_session (Some Completion.IMAGE) (Some (lit "A cat")) None None []) =
                   Some (lit "A cat")) by reflexivity.
    assert (H2 : lit "A cat" <> []) by discriminate.
    assert (H3 : Controller.message_text (Some (lit "shorter")) <> []) by (vm_compute; discriminate).
    assert (H4 : RateLimit.is_allowed 5%Q 3 RateLimit.rate_limiter0 =
                   (true, snd (RateLimit.is_allowed 5%Q 3 RateLimit.rate_limiter0)))
      by (vm_compute; reflexivity).
    assert (H5 : fst (Completion.call_deepseek
          (fun _ _ _ => Completion.Raised (Completion.TransportError (lit "Request timed out.")))
          Completion.RefinementSystemPrompt
          (Controller.refinement_message (lit "A cat") (Controller.message_text (Some (lit "shorter")))))
        = Completion.Err (Completion.TransportError (lit "Request timed out.")))
      by (vm_compute; reflexivity).
    do 5 (split; [assumption|]).
    exact (proj2 generation_failure_C2 _ _ _ _ _ _ _ _ _ _ H1 H2 H3 H4 H5).
Defined.

(** C6: after a successful generation by [handle_description] (the
    Completion Client returns a result and the deletion of the status
    message raises nothing other than [BadRequest]), whether or not the
    replies that follow succeed, the history is the old one with the new
    entry appended, oldest entries evicted
    first, at most 5 entries; a run of successful generations from a
    history of at most 5 entries leaves the last 5 of all entries in
    insertion order, so after 6 generations from an empty history exactly
    the last 5; each entry's text is the result cut to 200 characters with
    "…" appended exactly when the result is longer than 200. *)
Theorem history_C6 :
  (forall (tp : Completion.transport) (del : Controller.delete_outcome)
          (sent : Controller.send_outcome) (now : Q) (uid : Z)
          (text : option pystr) (ses : Controller.session) (rl rl1 : RateLimit.RateLimiter)
          (cat : Completion.Category) (result : pystr),
     Controller.category ses = Some cat -> Controller.message_text text <> [] ->
     RateLimit.is_allowed now uid rl = (true, rl1) ->
     fst (Completion.call_deepseek tp (Completion.SystemPrompt cat) (Controller.message_text text))
       = Completion.Ok result ->
     (forall e, del <> Controller.DeleteFailed e) ->
     exists st ses', Controller.handle_description tp del sent now uid text ses rl =
                    (st, ses', rl1) /\
       Controller.history ses' = Controller.append_history (Controller.history ses) cat result /\
       (length (Controller.history ses') <= Controller.HISTORY_MAX_ITEMS)%nat) /\
  (forall (h : list Controller.history_entry) (cat : Completion.Category) (result : pystr),
     Controller.append_history h cat result =
       Controller.py_tail Controller.HISTORY_MAX_ITEMS
         (h ++ [Controller.mk_entry cat (Controller.preview result)])) /\
  (forall (h0 : list Controller.history_entry) (gens : list (Completion.Category * pystr)),
     (length h0 <= Controller.HISTORY_MAX_ITEMS)%nat ->
     fold_left (fun h g => Controller.append_history h (fst g) (snd g)) gens h0 =
     Controller.py_tail Controller.HISTORY_MAX_ITEMS
       (h0 ++ map (fun g => Controller.mk_entry (fst g) (Controller.preview (snd g))) gens)) /\
  (forall gens : list (Completion.Category * pystr),
     length gens = 6%nat ->
     fold_left (fun h g => Controller.append_history h (fst g) (snd g)) gens [] =
     map (fun g => Controller.mk_entry (fst g) (Controller.preview (snd g))) (tl gens)) /\
  (forall result : pystr,
     (200 < pylen result -> Controller.preview result = firstn 200 result ++ [ELLIPSIS]) /\
     (pylen result <= 200 -> Controller.preview result = result)).
Proof.
  split; [|split; [|split; [|split]]].
  - intros tp del sent now uid text ses rl rl1 cat result Hcat Htext Hrl Hcall Hdel.
    do 2 eexists. split; [eapply ControllerFacts.handle_description_ok; eauto|].
    split; [reflexivity|]. apply HistoryFacts.py_tail_length.
  - reflexivity.
  - apply ControllerFacts.append_history_fold.
  - intros gens Hlen. rewrite ControllerFacts.append_history_fold by (simpl; lia).
    simpl. unfold Controller.py_tail. rewrite length_map, Hlen.
    destruct gens as [|g gs]; [discriminate|]. reflexivity.
  - intros result. unfold Controller.preview. split; intros H.
    + rewrite (proj2 (Z.ltb_lt _ _) H). reflexivity.
    + rewrite (proj2 (Z.ltb_ge _ _) H), app_nil_r.
      apply firstn_all2. unfold pylen in H. lia.
Qed.

Lemma history_C6_witness :
  (exists st ses', Controller.handle_description
                  (Completion.flaky_transport (lit "Write a REST API in Go"))
                  Controller.Deleted
                  (Controller.MenuSendFailed (Completion.TransportError (lit "Timed out")))
                  0%Q 1 (Some (lit "a REST API in Go"))
                  (Controller.mk_session (Some Completion.CODE) None None None [])
                  RateLimit.rate_limiter0 =
                (st, ses', snd (RateLimit.is_allowed 0%Q 1 RateLimit.rate_limiter0)) /\
     Controller.history ses' =
       Controller.append_history [] Completion.CODE (lit "Write a REST API in Go") /\
     (length (Controller.history ses') <= Controller.HISTORY_MAX_ITEMS)%nat) /\
  fold_left (fun h g => Controller.append_history h (fst g) (snd g))
    [(Completion.CODE, lit "p1"); (Completion.IMAGE, lit "p2"); (Completion.TEXT, lit "p3");
     (Completion.VIDEO, lit "p4"); (Completion.CODE, lit "p5"); (Completion.TEXT, lit "p6")] [] =
  map (fun g => Controller.mk_entry (fst g) (Controller.preview (snd g)))
    [(Completion.IMAGE, lit "p2"); (Completion.TEXT, lit "p3"); (Completion.VIDEO, lit "p4");
     (Completion.CODE, lit "p5"); (Completion.TEXT, lit "p6")] /\
  Controller.preview (repeat 120 201) = repeat 120 200 ++ [ELLIPSIS].
Proof.
  split; [|split].
  - apply (proj1 history_C6 (Completion.flaky_transport (lit "Write a REST API in Go"))
             Controller.Deleted
             (Controller.MenuSendFailed (Completion.TransportError (lit "Timed out")))
             0%Q 1 (Some (lit "a REST API in Go"))
             (Controller.mk_session (Some Completion.CODE) None None None [])
             RateLimit.rate_limiter0 (snd (RateLimit.is_allowed 0%Q 1 RateLimit.rate_limiter0))
             Completion.CODE (lit "Write a REST API in Go")).
    + reflexivity.
    + vm_compute; discriminate.
    + vm_compute; reflexivity.
    + vm_compute; reflexivity.
    + intros e; discriminate.
  - apply (proj1 (proj2 (proj2 (proj2 history_C6)))); reflexivity.
  - rewrite (proj1 (proj2 (proj2 (proj2 (proj2 history_C6))) (repeat 120 201)))
      by (unfold pylen; rewrite repeat_length; lia).
    reflexivity.
Defined.

(* ================================================================== *)
(** * Further properties of the code: lemmas *)

(* ------------------------------------------------------------------ *)
(** ** [str.strip()] is idempotent *)

Module StripFacts.

Lemma lstrip_suffix (s : pystr) : exists p, s = p ++ lstrip s.
Proof.
  induction s as [|c s IH]; simpl; [exists []; reflexivity|].
  destruct (is_space c).
  - destruct IH as [p Hp]. exists (c :: p). simpl. now rewrite <- Hp.
  - exists []. reflexivity.
Qed.

Lemma lstrip_head (s : pystr) (c : Z) (r : pystr) : lstrip s = c :: r -> is_space c = false.
Proof.
  induction s as [|x s IH]; simpl; [discriminate|].
  destruct (is_space x) eqn:Hx; [exact IH|]. intros E. injection E as -> _. exact Hx.
Qed.

Lemma lstrip_keep (s : pystr) : (forall c r, s = c :: r -> is_space c = false) -> lstrip s = s.
Proof. destruct s as [|c r]; intros H; [reflexivity|]. simpl. now rewrite (H c r eq_refl). Qed.

Lemma strip_idem (s : pystr) : strip (strip s) = strip s.
Proof.
  unfold strip at 2 3. remember (lstrip s) as a eqn:Ha. remember (lstrip (rev a)) as b eqn:Hb.
  assert (H1 : lstrip (rev b) = rev b).
  { apply lstrip_keep. intros c r E.
    destruct (lstrip_suffix (rev a)) as [p Hp]. rewrite <- Hb in Hp.
    apply (f_equal (@rev Z)) in Hp. rewrite rev_involutive, rev_app_distr, E in Hp.
    apply (lstrip_head s c (r ++ rev p)). rewrite <- Ha, Hp. reflexivity. }
  assert (H2 : lstrip b = b).
  { apply lstrip_keep. intros c r E. rewrite Hb in E. exact (lstrip_head (rev a) c r E). }
  unfold strip. now rewrite H1, rev_involutive, H2.
Qed.

Lemma attempt_ok_stripped (o : Completion.transport_outcome) (v : pystr) :
  Completion.attempt_once o = Completion.Ok v -> strip v = v.
Proof.
  destruct o as [[content|]|e]; simpl; try discriminate.
  destruct content as [|x content']; [discriminate|].
  destruct (strip (x :: content')) as [|y ys] eqn:Hs; [discriminate|].
  intros E. injection E as <-. rewrite <- Hs. apply strip_idem.
Qed.

(** A value returned by [call_deepseek] is non-empty and stripped. *)
Lemma call_ok_stripped (tp : Completion.transport) (sp : Completion.system_prompt)
    (um v : pystr) :
  fst (Completion.call_deepseek tp sp um) = Completion.Ok v -> v <> [] /\ strip v = v.
Proof.
  destruct (Completion.call_deepseek tp sp um) as [r evs] eqn:E. simpl. intros ->.
  destruct (CompletionFacts.retry_loop_ok _ _ _ _ _ _ E) as [i Hi].
  split; [apply (CompletionFacts.attempt_once_ok _ _ Hi) | exact (attempt_ok_stripped _ _ Hi)].
Qed.

Lemma call_ok_nonspace (tp : Completion.transport) (sp : Completion.system_prompt)
    (um v : pystr) :
  fst (Completion.call_deepseek tp sp um) = Completion.Ok v ->
  Exists (fun c => is_space c = false) v.
Proof.
  destruct (Completion.call_deepseek tp sp um) as [r evs] eqn:E. simpl. intros ->.
  destruct (CompletionFacts.retry_loop_ok _ _ _ _ _ _ E) as [i Hi].
  apply (CompletionFacts.attempt_once_ok _ _ Hi).
Qed.

End StripFacts.

(* ------------------------------------------------------------------ *)
(** ** Chunker: shape of the chunks, degenerate limits *)

Module ChunkerMore.
Import Chunker.

Lemma slices_from_tokens (f : nat) (part : pystr) (i step : nat) :
  (0 < step)%nat -> no_space part -> Forall token (slices_from f part i step).
Proof.
  intros Hs Hp. revert i. induction f as [|f IH]; intros i; simpl; [constructor|].
  destruct (Nat.ltb_spec i (length part)); [|constructor].
  constructor; [|apply IH]. unfold pyslice. split.
  - intros E. apply (f_equal (@length Z)) in E.
    rewrite length_firstn, length_skipn in E. simpl in E. lia.
  - unfold no_space in *. apply Forall_take. apply Forall_drop. exact Hp.
Qed.

Lemma char_slices_tokens (part : pystr) (L : Z) (sl : list pystr) :
  0 < L -> token part -> char_slices part L = Some sl -> Forall token sl.
Proof.
  intros HL [_ Hp]. unfold char_slices.
  rewrite (proj2 (Z.eqb_neq L 0)) by lia. rewrite (proj2 (Z.ltb_ge L 0)) by lia.
  intros E. injection E as <-. apply slices_from_tokens; [lia | exact Hp].
Qed.

Lemma token_shape (w : pystr) : token w -> chunk_shape w.
Proof. intros Hw. exists [w]. split; [discriminate|]. split; [constructor; [exact Hw|constructor] | reflexivity]. Qed.

Lemma chunk_shape_nonnil (c : pystr) : chunk_shape c -> c <> [].
Proof.
  intros (ws & Hne & Hws & ->). destruct ws as [|w ws]; [congruence|].
  inversion Hws as [|? ? [Hw _] _]; subst.
  destruct ws as [|w2 ws']; simpl; [exact Hw|].
  destruct w; [congruence|discriminate].
Qed.

Lemma step_shape (L : Z) (st st' : loop_st) (p : pystr) :
  0 < L -> token p -> Forall chunk_shape (chunks st) -> Forall token (current st) ->
  step L st p = Some st' -> Forall chunk_shape (chunks st') /\ Forall token (current st').
Proof.
  intros HL Hp Hch Hcur. destruct st as [chs cur cl]; simpl in *. unfold step; simpl.
  assert (Hch1 : Forall chunk_shape
                   (match cur with [] => chs | _ => chs ++ [pyjoin [SPACE] cur] end)).
  { destruct cur as [|w ws]; [exact Hch|]. apply Forall_app. split; [exact Hch|].
    constructor; [|constructor]. exists (w :: ws). split; [discriminate|]. split; [exact Hcur|reflexivity]. }
  destruct (cl + _ <=? L).
  - intros E. injection E as <-. simpl. split; [exact Hch|].
    apply Forall_app. split; [exact Hcur | constructor; [exact Hp | constructor]].
  - destruct (L <? pylen p).
    + destruct (char_slices p L) as [sl|] eqn:Hsl; [|discriminate].
      intros E. injection E as <-. simpl. split; [|constructor].
      apply Forall_app. split; [exact Hch1|].
      eapply Forall_impl; [apply (char_slices_tokens p L sl HL Hp Hsl)|].
      intros w Hw. apply token_shape. exact Hw.
    + intros E. injection E as <-. simpl. split; [exact Hch1|]. constructor; [exact Hp|constructor].
Qed.

Lemma loop_shape (L : Z) (ps : list pystr) (st st' : loop_st) :
  0 < L -> Forall token ps -> Forall chunk_shape (chunks st) -> Forall token (current st) ->
  loop L st ps = Some st' -> Forall chunk_shape (chunks st') /\ Forall token (current st').
Proof.
  revert st. induction ps as [|p ps IH]; intros st HL Hps Hch Hcur; simpl.
  - intros E. injection E as <-. auto.
  - inversion Hps as [|? ? Hp Hps']; subst.
    destruct (step L st p) as [st1|] eqn:Hs; [|discriminate].
    destruct (step_shape L st st1 p HL Hp Hch Hcur Hs) as [Hch1 Hcur1].
    apply IH; auto.
Qed.

(** For a text longer than a positive limit, every chunk is one or more
    words joined by single spaces. *)
Lemma split_shape (T : pystr) (L : Z) (cs : list pystr) :
  0 < L -> L < pylen T -> split_into_chunks T L = Some cs -> Forall chunk_shape cs.
Proof.
  intros HL Hlong. unfold split_into_chunks.
  destruct T as [|x T']; [unfold pylen in Hlong; simpl in Hlong; lia|].
  rewrite (proj2 (Z.leb_gt _ _) Hlong).
  destruct (loop L (mk_loop [] [] 0) (pysplit (x :: T'))) as [st|] eqn:Hl; [|discriminate].
  destruct (loop_shape L (pysplit (x :: T')) (mk_loop [] [] 0) st HL (pysplit_tokens (x :: T'))
              ltac:(constructor) ltac:(constructor) Hl)
    as [Hch Hcur].
  intros E. injection E as <-.
  destruct (current st) as [|w ws] eqn:Hc; [exact Hch|].
  apply Forall_app. split; [exact Hch|]. constructor; [|constructor].
  exists (w :: ws). split; [discriminate|]. split; [exact Hcur|reflexivity].
Qed.

(** A non-empty text within the limit is returned as the only chunk. *)
Lemma split_short (c : pystr) (L : Z) :
  c <> [] -> pylen c <= L -> split_into_chunks c L = Some [c].
Proof.
  intros Hne Hle. destruct c as [|x c']; [congruence|].
  unfold split_into_chunks. rewrite (proj2 (Z.leb_le _ _) Hle). reflexivity.
Qed.

Lemma loop_zero (p : pystr) (ps : list pystr) :
  p <> [] -> loop 0 (mk_loop [] [] 0) (p :: ps) = None.
Proof.
  intros Hp. simpl. unfold step. cbn [current current_len chunks].
  rewrite (proj2 (Z.leb_gt _ _)) by (destruct p; [congruence|]; unfold pylen; simpl; lia).
  rewrite (proj2 (Z.ltb_lt _ _)) by (destruct p; [congruence|]; unfold pylen; simpl; lia).
  reflexivity.
Qed.

Lemma loop_negative (L : Z) (ps : list pystr) :
  L < 0 -> loop L (mk_loop [] [] 0) ps = Some (mk_loop [] [] 0).
Proof.
  intros HL. induction ps as [|p ps IH]; [reflexivity|]. simpl. unfold step.
  cbn [current current_len chunks].
  rewrite (proj2 (Z.leb_gt _ _)) by (unfold pylen; lia).
  rewrite (proj2 (Z.ltb_lt _ _)) by (unfold pylen; lia).
  unfold char_slices. rewrite (proj2 (Z.eqb_neq L 0)) by lia.
  rewrite (proj2 (Z.ltb_lt L 0)) by lia. exact IH.
Qed.

End ChunkerMore.

(* ------------------------------------------------------------------ *)
(** ** Rate limiter: the window of one user over time *)

Module RateLimitMore.
Import RateLimit RateLimitFacts.

Lemma filter_len {A} (f : A -> bool) (l : list A) : (length (List.filter f l) <= length l)%nat.
Proof. induction l as [|x l IH]; simpl; [lia|]. destruct (f x); simpl; lia. Qed.

Lemma filter_newer_mono (c1 c2 : Q) (l : list Q) :
  (c1 <= c2)%Q ->
  List.filter (newer_than c2) (List.filter (newer_than c1) l) = List.filter (newer_than c2) l.
Proof.
  intros Hc. induction l as [|t l IH]; [reflexivity|]. simpl.
  destruct (newer_than c1 t) eqn:E1; simpl.
  - destruct (newer_than c2 t); now rewrite IH.
  - destruct (newer_than c2 t) eqn:E2; [|exact IH].
    apply newer_than_spec in E2.
    assert (E : newer_than c1 t = true) by (apply newer_true; lra). congruence.
Qed.

(** The stored timestamps after a sequence of calls. *)
Fixpoint window_final (max : Z) (ts : list Q) (calls : list (Q * Z)) : list Q :=
  match calls with
  | [] => ts
  | (now, _) :: cs => window_final max (snd (window_step max now ts)) cs
  end.

(** The admitted times, as [window_run] answers. *)
Definition Aw (max : Z) (ts : list Q) (cs : list (Q * Z)) : list Q :=
  map (fun cb => fst (fst cb)) (List.filter snd (combine cs (window_run max ts cs))).

Lemma window_run_app (max : Z) (ts : list Q) (cs1 cs2 : list (Q * Z)) :
  window_run max ts (cs1 ++ cs2) =
  window_run max ts cs1 ++ window_run max (window_final max ts cs1) cs2.
Proof.
  revert ts. induction cs1 as [|[now x] cs1 IH]; intros ts; [reflexivity|]. simpl.
  destruct (window_step max now ts) as [b ts1]. simpl. now rewrite IH.
Qed.

Lemma window_final_app (max : Z) (ts : list Q) (cs1 cs2 : list (Q * Z)) :
  window_final max ts (cs1 ++ cs2) = window_final max (window_final max ts cs1) cs2.
Proof. revert ts. induction cs1 as [|[now x] cs1 IH]; intros ts; [reflexivity|]. apply IH. Qed.

Lemma window_run_length (max : Z) (ts : list Q) (cs : list (Q * Z)) :
  length (window_run max ts cs) = length cs.
Proof.
  revert ts. induction cs as [|[now x] cs IH]; intros ts; [reflexivity|]. simpl.
  destruct (window_step max now ts) as [b ts1]. simpl. now rewrite IH.
Qed.

Lemma window_step_len (max : Z) (now : Q) (ts : list Q) :
  (length ts <= Z.to_nat max)%nat -> (length (snd (window_step max now ts)) <= Z.to_nat max)%nat.
Proof.
  intros H. unfold window_step.
  destruct (Z.leb_spec max (Z.of_nat (length (List.filter (newer_than (now - 60)) ts)))); simpl.
  - pose proof (filter_len (newer_than (now - 60)) ts). lia.
  - rewrite length_app. simpl. lia.
Qed.

Lemma window_final_len (max : Z) (ts : list Q) (cs : list (Q * Z)) :
  (length ts <= Z.to_nat max)%nat -> (length (window_final max ts cs) <= Z.to_nat max)%nat.
Proof.
  revert ts. induction cs as [|[now x] cs IH]; intros ts H; [exact H|].
  apply IH. apply window_step_len. exact H.
Qed.

Lemma combine_app {A B} (l1 l2 : list A) (m1 m2 : list B) :
  length l1 = length m1 -> combine (l1 ++ l2) (m1 ++ m2) = combine l1 m1 ++ combine l2 m2.
Proof.
  revert m1. induction l1 as [|a l1 IH]; intros [|b m1] H; simpl in *; try discriminate; [reflexivity|].
  f_equal. apply IH. lia.
Qed.

Lemma Aw_snoc (max : Z) (ts : list Q) (cs : list (Q * Z)) (t : Q) (x : Z) :
  Aw max ts (cs ++ [(t, x)]) =
  Aw max ts cs ++ (if fst (window_step max t (window_final max ts cs)) then [t] else []).
Proof.
  unfold Aw. rewrite window_run_app. simpl.
  destruct (window_step max t (window_final max ts cs)) as [b ts1]. simpl.
  rewrite combine_app by (rewrite window_run_length; reflexivity).
  rewrite List.filter_app, map_app. simpl. destruct b; reflexivity.
Qed.

Lemma Aw_in (max : Z) (ts : list Q) (cs : list (Q * Z)) (t : Q) :
  In t (Aw max ts cs) -> In t (map fst cs).
Proof.
  unfold Aw. intros H. apply in_map_iff in H as [[[t' x] b] [Ht Hin]]. simpl in Ht. subst t'.
  apply filter_In in Hin as [Hin _]. apply in_combine_l in Hin.
  apply in_map_iff. exists (t, x). auto.
Qed.

Lemma nondecreasing_snoc (l : list Q) (x : Q) :
  nondecreasing (l ++ [x]) = true -> nondecreasing l = true /\ Forall (fun y => y <= x)%Q l.
Proof.
  induction l as [|a l IH]; simpl; [split; [reflexivity|constructor]|].
  destruct l as [|b l'].
  - simpl. intros H. apply andb_true_iff in H as [H _]. apply Qle_bool_iff in H.
    split; [reflexivity|]. constructor; [exact H|constructor].
  - intros H. apply andb_true_iff in H as [Hab H]. destruct (IH H) as [H1 H2].
    split; [now rewrite Hab, H1|].
    constructor; [|exact H2]. inversion H2 as [|? ? Hb _]; subst.
    apply Qle_bool_iff in Hab. eapply Qle_trans; eassumption.
Qed.

(** With a clock that never goes back, the timestamps a user's list keeps
    newer than [t - 60], for [t] not before any call, are the admitted
    times newer than [t - 60]. *)
Lemma window_final_filter (max : Z) (cs : list (Q * Z)) :
  nondecreasing (map fst cs) = true ->
  forall t : Q, Forall (fun y => y <= t)%Q (map fst cs) ->
  List.filter (newer_than (t - 60)) (window_final max [] cs) =
  List.filter (newer_than (t - 60)) (Aw max [] cs).
Proof.
  induction cs as [|[t1 x] cs IH] using rev_ind; intros Hnd t Hle; [reflexivity|].
  rewrite map_app in Hnd, Hle. simpl in Hnd, Hle.
  destruct (nondecreasing_snoc _ _ Hnd) as [Hnd' Hle'].
  apply Forall_app in Hle as [_ Ht1]. inversion Ht1 as [|? ? Ht1' _]; subst.
  assert (IH1 := IH Hnd' t1 Hle').
  rewrite Aw_snoc, window_final_app. simpl.
  unfold window_step.
  destruct (max <=? Z.of_nat (length (List.filter (newer_than (t1 - 60)) (window_final max [] cs))));
    simpl.
  - rewrite app_nil_r, IH1. apply filter_newer_mono. lra.
  - rewrite !List.filter_app. f_equal. rewrite IH1. apply filter_newer_mono. lra.
Qed.

Lemma window_answer (max : Z) (cs : list (Q * Z)) (now : Q) (x : Z) :
  nondecreasing (map fst cs ++ [now]) = true ->
  window_run max [] (cs ++ [(now, x)]) =
  window_run max [] cs ++
  [Z.of_nat (length (List.filter (newer_than (now - 60)) (Aw max [] cs))) <? max].
Proof.
  intros Hnd. destruct (nondecreasing_snoc _ _ Hnd) as [Hnd' Hle].
  rewrite window_run_app. simpl. unfold window_step.
  rewrite (window_final_filter max cs Hnd' now Hle).
  destruct (Z.leb_spec max (Z.of_nat (length (List.filter (newer_than (now - 60)) (Aw max [] cs)))));
    simpl; f_equal; f_equal; symmetry; [apply Z.ltb_ge | apply Z.ltb_lt]; lia.
Qed.

Lemma window_bound (max : Z) (cs : list (Q * Z)) :
  nondecreasing (map fst cs) = true ->
  forall a : Q,
  (length (List.filter (fun t => newer_than (a - 60) t && Qle_bool t a) (Aw max [] cs))
     <= Z.to_nat max)%nat.
Proof.
  induction cs as [|[t1 x] cs IH] using rev_ind; intros Hnd a; [simpl; lia|].
  assert (Hnd2 := Hnd). rewrite map_app in Hnd2. simpl in Hnd2.
  destruct (nondecreasing_snoc _ _ Hnd2) as [Hnd' Hle'].
  destruct (Qle_bool t1 a) eqn:Ha.
  - apply Qle_bool_iff in Ha.
    assert (Hall : Forall (fun y => y <= a)%Q (map fst (cs ++ [(t1, x)]))).
    { rewrite map_app. apply Forall_app. split; [|constructor; [exact Ha|constructor]].
      eapply Forall_impl; [exact Hle'|]. intros y Hy. simpl in Hy. eapply Qle_trans; eassumption. }
    rewrite (filter_ext_in _ (newer_than (a - 60))).
    + rewrite <- (window_final_filter max _ Hnd a Hall).
      eapply Nat.le_trans; [apply filter_len|]. apply window_final_len. simpl. lia.
    + intros t Ht. apply Aw_in in Ht. rewrite List.Forall_forall in Hall.
      rewrite (proj2 (Qle_bool_iff t a) (Hall t Ht)). apply andb_true_r.
  - rewrite Aw_snoc, List.filter_app, length_app.
    assert (E : length (List.filter (fun t => newer_than (a - 60) t && Qle_bool t a)
                  (if fst (window_step max t1 (window_final max [] cs)) then [t1] else [])) = 0%nat).
    { destruct (fst _); simpl; [rewrite Ha, andb_false_r|]; reflexivity. }
    rewrite E, Nat.add_0_r. apply IH. exact Hnd'.
Qed.

Lemma user_ts_empty (mx u : Z) : user_ts (mk_limiter mx ∅) u = [].
Proof. unfold user_ts. simpl. now rewrite lookup_empty. Qed.

Lemma admitted_times_window (u mx : Z) (calls : list (Q * Z)) :
  admitted_times u (mk_limiter mx ∅) calls = Aw mx [] (calls_of u calls).
Proof. unfold admitted_times. rewrite run_window, user_ts_empty. reflexivity. Qed.

Lemma calls_of_snoc (u : Z) (calls : list (Q * Z)) (now : Q) :
  calls_of u (calls ++ [(now, u)]) = calls_of u calls ++ [(now, u)].
Proof. unfold calls_of. rewrite List.filter_app. simpl. now rewrite Z.eqb_refl. Qed.

Lemma is_allowed_len (now : Q) (u : Z) (rl : RateLimiter) :
  (forall w, length (user_ts rl w) <= Z.to_nat (max_per_minute rl))%nat ->
  max_per_minute (snd (is_allowed now u rl)) = max_per_minute rl /\
  (forall w, length (user_ts (snd (is_allowed now u rl)) w) <= Z.to_nat (max_per_minute rl))%nat.
Proof.
  intros H. split; [apply (is_allowed_window now u rl u)|]. intros w.
  destruct (is_allowed_window now u rl w) as (_ & _ & Hts). rewrite Hts.
  destruct (Z.eq_dec u w); [apply window_step_len; apply H | apply H].
Qed.

Lemma run_len (rl : RateLimiter) (calls : list (Q * Z)) :
  (forall w, length (user_ts rl w) <= Z.to_nat (max_per_minute rl))%nat ->
  (forall w, length (user_ts (snd (run rl calls)) w) <= Z.to_nat (max_per_minute rl))%nat.
Proof.
  revert rl. induction calls as [|[now u] cs IH]; intros rl H; [exact H|]. simpl.
  destruct (is_allowed_len now u rl H) as [Hmax H1].
  destruct (is_allowed now u rl) as [b rl1] eqn:Hia. simpl in Hmax, H1.
  destruct (run rl1 cs) as [outs rl2] eqn:Hrun. simpl.
  rewrite <- Hmax. intros w.
  assert (Hw := IH rl1). rewrite Hrun in Hw. apply Hw. rewrite Hmax. exact H1.
Qed.

Lemma is_allowed_dom (now : Q) (u : Z) (rl : RateLimiter) :
  (dom (timestamps (snd (is_allowed now u rl))) : gset Z) = {[u]} ∪ dom (timestamps rl).
Proof.
  destruct rl as [mx m]. unfold is_allowed. simpl.
  destruct (_ <=? _); simpl; rewrite ?dom_insert_L; set_solver.
Qed.

End RateLimitMore.

(* ------------------------------------------------------------------ *)
(** ** Handlers *)

Module ControllerMore.
Import Completion RateLimit Controller Handlers.

Lemma message_text_stripped (text : option pystr) :
  strip (message_text text) = message_text text.
Proof. unfold message_text. apply StripFacts.strip_idem. Qed.

Lemma preview_len (r : pystr) : pylen (preview r) <= 201.
Proof.
  unfold preview, pylen. rewrite length_app, length_firstn.
  destruct (200 <? _); cbn [length]; lia.
Qed.

Lemma append_history_ok (h : list history_entry) (c : Category) (r : pystr) :
  Forall (fun e => pylen (h_text e) <= 201) h ->
  Forall (fun e => pylen (h_text e) <= 201) (append_history h c r) /\
  (length (append_history h c r) <= HISTORY_MAX_ITEMS)%nat.
Proof.
  intros H. split; [|apply HistoryFacts.py_tail_length].
  unfold append_history, py_tail. apply Forall_drop. apply Forall_app.
  split; [exact H|]. constructor; [apply preview_len|constructor].
Qed.

(** The only change [handle_refinement] makes to a session: a new
    last prompt, non-empty and stripped, when a last prompt was set. *)
Lemma handle_refinement_shape (tp : transport) (del : delete_outcome) (now : Q) (uid : Z)
    (text : option pystr) (ses ses' : session) (rl rl' : RateLimiter) (st : ConversationState) :
  handle_refinement tp del now uid text ses rl = (st, ses', rl') ->
  ses' = ses \/
  (st = PROMPT_SHOWN /\ last_prompt ses <> None /\
   exists v, v <> [] /\ strip v = v /\
     ses' = mk_session (category ses) (Some v) (last_category ses)
              (original_description ses) (history ses)).
Proof.
  unfold handle_refinement. intros H.
  destruct (last_prompt ses) as [[|x l]|] eqn:Hlp; [injection H; auto| |injection H; auto].
  destruct (message_text text) as [|y t]; [injection H; auto|].
  destruct (is_allowed now uid rl) as [[|] rl1]; simpl in H; [|injection H; auto].
  destruct (fst (call_deepseek tp RefinementSystemPrompt (refinement_message (x :: l) (y :: t))))
    as [v|e] eqn:Hc; [|injection H; auto].
  destruct (StripFacts.call_ok_stripped _ _ _ _ Hc) as [Hne Hs].
  destruct del as [| |e]; injection H as <- <- _; [right|right|left; reflexivity];
    (split; [reflexivity|]); (split; [discriminate|]); exists v; auto.
Qed.

Lemma category_callback_ok (q : option (option pystr)) (mc ec : option Z) (ses : session) :
  session_ok ses -> session_ok (snd (category_callback q mc ec ses)).
Proof.
  intros H. unfold category_callback.
  destruct q as [data|]; [|exact H].
  destruct (category_of_value _) as [c|]; [|exact H].
  destruct (py_or_chat mc ec); exact H.
Qed.

Lemma handle_description_keeps_ok (tp : transport) (del : delete_outcome) (sent : send_outcome)
    (now : Q) (uid : Z) (text : option pystr) (ses : session) (rl : RateLimiter) :
  session_ok ses -> session_ok (snd (fst (handle_description tp del sent now uid text ses rl))).
Proof.
  intros H. unfold handle_description.
  destruct (category ses) as [cat|]; [|exact H].
  assert (Hst := message_text_stripped text).
  destruct (message_text text) as [|y t] eqn:Ht; [exact H|].
  destruct (is_allowed now uid rl) as [[|] rl1]; simpl; [|exact H].
  destruct (fst (call_deepseek tp (SystemPrompt cat) (y :: t))) as [r|e] eqn:Hc; [|exact H].
  destruct (StripFacts.call_ok_stripped _ _ _ _ Hc) as [Hne Hs].
  pose proof H as H0. destruct H as (H1 & H2 & H3 & H4 & H5 & H6).
  destruct (append_history_ok (history ses) cat r H2) as [Hh1 Hh2].
  assert (Hnew : session_ok (mk_session (category ses) (Some r) (Some cat) (Some (y :: t))
                               (append_history (history ses) cat r))).
  { unfold session_ok; simpl.
    split; [exact Hh2|]. split; [exact Hh1|].
    split; [split; discriminate|]. split; [split; discriminate|].
    split; intros p E; injection E as <-; split; auto; discriminate. }
  assert (Hold : session_ok (mk_session (category ses) (last_prompt ses) (last_category ses)
                               (original_description ses) (append_history (history ses) cat r))).
  { unfold session_ok; simpl.
    split; [exact Hh2|]. split; [exact Hh1|]. tauto. }
  destruct del as [| |e]; simpl; [| |exact H0];
    destruct sent; simpl; first [exact Hnew | exact Hold].
Qed.

Lemma handle_refinement_keeps_ok (tp : transport) (del : delete_outcome) (now : Q) (uid : Z)
    (text : option pystr) (ses : session) (rl : RateLimiter) :
  session_ok ses -> session_ok (snd (fst (handle_refinement tp del now uid text ses rl))).
Proof.
  intros H.
  destruct (handle_refinement tp del now uid text ses rl) as [[st ses'] rl'] eqn:E. simpl.
  destruct (handle_refinement_shape _ _ _ _ _ _ _ _ _ _ E) as [->|(_ & Hlp & v & Hne & Hs & ->)];
    [exact H|].
  destruct H as (H1 & H2 & H3 & H4 & H5 & H6).
  unfold session_ok; simpl.
  split; [exact H1|]. split; [exact H2|].
  split; [split; [discriminate | intros Hc; exfalso; apply Hlp, H3, Hc]|].
  split; [split; [discriminate | intros Hc; exfalso; apply Hlp, H4, Hc]|].
  split; [intros p Ep; injection Ep as <-; auto | exact H6].
Qed.

Lemma dispatch_ok (u : update) (ses : session) (rl : RateLimiter) :
  session_ok ses -> session_ok (snd (fst (dispatch u ses rl))).
Proof.
  intros H. destruct u as [q mc ec|tp del now uid text|tp del now uid text]; simpl.
  - assert (Hc := category_callback_ok q mc ec ses H).
    destruct (category_callback q mc ec ses) as [st ses1]. exact Hc.
  - apply handle_description_keeps_ok. exact H.
  - apply handle_refinement_keeps_ok. exact H.
Qed.

Lemma category_of_value_value (c : Category) : category_of_value (category_value c) = Some c.
Proof. destruct c; reflexivity. Qed.

Lemma category_of_value_none (d : pystr) :
  (forall c, d <> category_value c) -> category_of_value d = None.
Proof.
  intros H. unfold category_of_value, all_categories. cbn [List.find]. unfold pystr_eqb.
  rewrite !bool_decide_false by (intros E; exact (H _ (eq_sym E))). reflexivity.
Qed.

Lemma firstn_preview (r : pystr) : firstn 150 (preview r) = firstn 150 r.
Proof.
  unfold preview, pylen. rewrite firstn_app, firstn_firstn, length_firstn.
  destruct (Z.ltb_spec 200 (Z.of_nat (length r))).
  - replace (150 - Nat.min 200 (length r))%nat with 0%nat by lia. simpl.
    rewrite app_nil_r. reflexivity.
  - rewrite firstn_nil, app_nil_r. reflexivity.
Qed.

Lemma history_line_preview (i : nat) (c : Category) (r : pystr) :
  history_line i (mk_entry c (preview r)) = shown_line i c r.
Proof.
  unfold history_line, shown_line. cbn [h_category h_text]. rewrite firstn_preview.
  replace (150 <=? pylen (firstn 150 r)) with (150 <=? pylen r); [reflexivity|].
  unfold pylen. rewrite length_firstn.
  destruct (Z.leb_spec 150 (Z.of_nat (length r))), (Z.leb_spec 150 (Z.of_nat (Nat.min 150 (length r))));
    lia.
Qed.

Lemma history_lines_preview (i : nat) (gens : list (Category * pystr)) :
  history_lines i (map (fun g => mk_entry (fst g) (preview (snd g))) gens) = shown_lines i gens.
Proof.
  revert i. induction gens as [|g gens IH]; intros i; [reflexivity|]. simpl.
  rewrite history_line_preview, IH. reflexivity.
Qed.

Lemma py_tail_map {A B} (f : A -> B) (n : nat) (l : list A) :
  py_tail n (map f l) = map f (py_tail n l).
Proof. unfold py_tail. rewrite length_map. apply skipn_map. Qed.

End ControllerMore.

(* ================================================================== *)
(** * Further properties of the code *)

(* ------------------------------------------------------------------ *)
(** ** Chunker edge cases *)

(** X1: with [max_length = 0], [split_into_chunks] raises [ValueError]
    (the zero step of [range] in the character split, or the failed
    flush of a word) exactly when the text has a non-whitespace
    character; otherwise it returns []. *)
Theorem split_into_chunks_zero_X1 (T : pystr) :
  Chunker.split_into_chunks T 0 =
  if existsb (fun c => negb (is_space c)) T then None else Some [].
Proof.
  destruct T as [|x T']; [reflexivity|].
  unfold Chunker.split_into_chunks.
  rewrite (proj2 (Z.leb_gt _ _)) by (unfold pylen; cbn [length]; lia).
  destruct (existsb (fun c => negb (is_space c)) (x :: T')) eqn:E.
  - apply existsb_exists in E as (c & Hin & Hc).
    assert (Hex : Exists (fun c => is_space c = false) (x :: T')).
    { apply List.Exists_exists. exists c. split; [exact Hin|]. now apply Bool.negb_true_iff. }
    assert (Hne := pysplit_go_nonnil (x :: T') [] Hex).
    unfold pysplit in *. destruct (pysplit_go [] (x :: T')) as [|p ps] eqn:Hs; [congruence|].
    assert (Hp : p <> []).
    { pose proof (pysplit_tokens (x :: T')) as Ht. unfold pysplit in Ht. rewrite Hs in Ht.
      inversion Ht as [|? ? [Hp _] _]. exact Hp. }
    rewrite ChunkerMore.loop_zero by exact Hp. reflexivity.
  - assert (Hsp : Forall (fun c => is_space c = true) (x :: T')).
    { apply List.Forall_forall. intros c Hin. destruct (is_space c) eqn:Hc; [reflexivity|].
      exfalso. assert (E' : existsb (fun c => negb (is_space c)) (x :: T') = true).
      { apply existsb_exists. exists c. split; [exact Hin|]. now rewrite Hc. }
      congruence. }
    unfold pysplit. rewrite (pysplit_go_spaces (x :: T') Hsp). reflexivity.
Qed.

(** X2: with a negative [max_length], [split_into_chunks] returns [] for
    every text: the character split of a long word yields nothing and no
    chunk is ever flushed. *)
Theorem split_into_chunks_negative_X2 (T : pystr) (L : Z) :
  L < 0 -> Chunker.split_into_chunks T L = Some [].
Proof.
  intros HL. destruct T as [|x T']; [reflexivity|].
  unfold Chunker.split_into_chunks.
  rewrite (proj2 (Z.leb_gt _ _)) by (unfold pylen; cbn [length]; lia).
  rewrite ChunkerMore.loop_negative by exact HL. reflexivity.
Qed.

Lemma split_into_chunks_negative_X2_witness :
  -1 < 0 /\ Chunker.split_into_chunks (lit "a long text") (-1) = Some [].
Proof. split; [lia | apply split_into_chunks_negative_X2; lia]. Defined.

(** X3: when [split_into_chunks] really splits ([0 < max_length <
    len(text)]), every chunk is one or more whitespace-free words joined by
    single spaces: never empty, no leading or trailing whitespace, no
    newline or other whitespace than single spaces. *)
Theorem split_into_chunks_shape_X3 (T : pystr) (L : Z) :
  0 < L -> L < pylen T ->
  exists cs, Chunker.split_into_chunks T L = Some cs /\ Forall chunk_shape cs.
Proof.
  intros HL HT. destruct (ChunkerLoop.split_spec T L HL) as (cs & Hcs & _).
  exists cs. split; [exact Hcs|]. exact (ChunkerMore.split_shape T L cs HL HT Hcs).
Qed.

Lemma split_into_chunks_shape_X3_witness :
  0 < 6 /\ 6 < pylen (lit "alpha  beta" ++ [10] ++ lit "gamma") /\
  exists cs, Chunker.split_into_chunks (lit "alpha  beta" ++ [10] ++ lit "gamma") 6 = Some cs /\
             Forall chunk_shape cs.
Proof.
  assert (H1 : 0 < 6) by lia.
  assert (H2 : 6 < pylen (lit "alpha  beta" ++ [10] ++ lit "gamma")) by (vm_compute; reflexivity).
  split; [exact H1|]. split; [exact H2|].
  exact (split_into_chunks_shape_X3 _ _ H1 H2).
Defined.

(** X4: for a positive [max_length], every chunk that [split_into_chunks]
    returns is passed through unchanged when split again with the same
    [max_length]: splitting a chunk gives exactly [[chunk]]. *)
Theorem split_into_chunks_rechunk_X4 (T : pystr) (L : Z) :
  0 < L ->
  exists cs, Chunker.split_into_chunks T L = Some cs /\
             Forall (fun c => Chunker.split_into_chunks c L = Some [c]) cs.
Proof.
  intros HL. destruct (ChunkerLoop.split_spec T L HL) as (cs & Hcs & Hle & _ & Hone).
  exists cs. split; [exact Hcs|].
  destruct T as [|x T'].
  - cbn in Hcs. injection Hcs as <-. constructor.
  - destruct (Z.le_gt_cases (pylen (x :: T')) L) as [Hs|Hg].
    + rewrite (Hone ltac:(discriminate) Hs) in Hcs |- *.
      constructor; [exact Hcs | constructor].
    + assert (Hsh := ChunkerMore.split_shape (x :: T') L cs HL Hg Hcs).
      apply List.Forall_forall. intros c Hin.
      rewrite List.Forall_forall in Hsh, Hle.
      apply ChunkerMore.split_short; [apply ChunkerMore.chunk_shape_nonnil; auto | auto].
Qed.

Lemma split_into_chunks_rechunk_X4_witness :
  0 < 6 /\
  exists cs, Chunker.split_into_chunks (lit "alpha  beta" ++ [10] ++ lit "gamma") 6 = Some cs /\
             Forall (fun c => Chunker.split_into_chunks c 6 = Some [c]) cs.
Proof.
  assert (H1 : 0 < 6) by lia.
  split; [exact H1 | exact (split_into_chunks_rechunk_X4 _ _ H1)].
Defined.

(* ------------------------------------------------------------------ *)
(** ** Rate limiter *)

(** X5: whatever the calls, a [RateLimiter] created empty never stores more
    than [max_per_minute] timestamps for one user (none when
    [max_per_minute <= 0]). *)
Theorem rate_limiter_bounded_X5 (mx : Z) (calls : list (Q * Z)) (v : Z) :
  (length (RateLimit.user_ts (snd (RateLimit.run (RateLimit.mk_limiter mx ∅) calls)) v)
     <= Z.to_nat mx)%nat.
Proof.
  apply (RateLimitMore.run_len (RateLimit.mk_limiter mx ∅) calls).
  intros w. rewrite RateLimitMore.user_ts_empty. simpl. lia.
Qed.

(** X6: the users with an entry in [_timestamps] after a sequence of calls
    are those it had before plus every user that called [is_allowed],
    admitted or not; no entry is ever removed. *)
Theorem rate_limiter_keys_X6 (rl : RateLimit.RateLimiter) (calls : list (Q * Z)) :
  (dom (RateLimit.timestamps (snd (RateLimit.run rl calls))) : gset Z) =
  dom (RateLimit.timestamps rl) ∪ list_to_set (map snd calls).
Proof.
  revert rl. induction calls as [|[now u] cs IH]; intros rl; simpl.
  - set_solver.
  - destruct (RateLimit.is_allowed now u rl) as [b rl1] eqn:E.
    destruct (RateLimit.run rl1 cs) as [outs rl2] eqn:E2. simpl.
    specialize (IH rl1). rewrite E2 in IH. simpl in IH. rewrite IH.
    assert (D := RateLimitMore.is_allowed_dom now u rl). rewrite E in D. simpl in D.
    rewrite D. set_solver.
Qed.

(** X7: with a clock that never goes back, a new call of user [u] at [now]
    to a limiter created empty is admitted exactly when fewer than
    [max_per_minute] of [u]'s earlier admitted calls are less than 60
    seconds old (time [> now - 60]); the answers to the earlier calls are
    unchanged, and other users' calls play no part. *)
Theorem is_allowed_history_X7 (mx u : Z) (calls : list (Q * Z)) (now : Q) :
  nondecreasing (map fst (RateLimit.calls_of u (calls ++ [(now, u)]))) = true ->
  RateLimit.answers_of u (fst (RateLimit.run (RateLimit.mk_limiter mx ∅) (calls ++ [(now, u)]))) =
  RateLimit.answers_of u (fst (RateLimit.run (RateLimit.mk_limiter mx ∅) calls)) ++
  [Z.of_nat (length (List.filter (RateLimit.newer_than (now - 60)%Q)
                       (admitted_times u (RateLimit.mk_limiter mx ∅) calls))) <? mx].
Proof.
  intros Hnd.
  rewrite RateLimitMore.admitted_times_window, !RateLimitFacts.run_window,
    !RateLimitMore.user_ts_empty.
  cbn [RateLimit.max_per_minute].
  rewrite RateLimitMore.calls_of_snoc in *. rewrite map_app in Hnd.
  apply RateLimitMore.window_answer. exact Hnd.
Qed.

Lemma is_allowed_history_X7_witness :
  nondecreasing (map fst (RateLimit.calls_of 1
    ([(0%Q, 1); (5%Q, 2); (10%Q, 1); (20%Q, 1)] ++ [(61%Q, 1)]))) = true /\
  RateLimit.answers_of 1 (fst (RateLimit.run (RateLimit.mk_limiter 2 ∅)
    ([(0%Q, 1); (5%Q, 2); (10%Q, 1); (20%Q, 1)] ++ [(61%Q, 1)]))) =
  RateLimit.answers_of 1 (fst (RateLimit.run (RateLimit.mk_limiter 2 ∅)
    [(0%Q, 1); (5%Q, 2); (10%Q, 1); (20%Q, 1)])) ++
  [Z.of_nat (length (List.filter (RateLimit.newer_than (61 - 60)%Q)
     (admitted_times 1 (RateLimit.mk_limiter 2 ∅) [(0%Q, 1); (5%Q, 2); (10%Q, 1); (20%Q, 1)]))) <? 2].
Proof.
  assert (H : nondecreasing (map fst (RateLimit.calls_of 1
    ([(0%Q, 1); (5%Q, 2); (10%Q, 1); (20%Q, 1)] ++ [(61%Q, 1)]))) = true) by (vm_compute; reflexivity).
  split; [exact H | exact (is_allowed_history_X7 _ _ _ _ H)].
Defined.

(** X8: with a clock that never goes back, a limiter created empty admits
    at most [max_per_minute] calls of one user in any 60-second window
    [(a - 60, a]]. *)
Theorem rate_limit_window_X8 (mx u : Z) (calls : list (Q * Z)) :
  nondecreasing (map fst (RateLimit.calls_of u calls)) = true ->
  forall a : Q,
  (length (List.filter (fun t => RateLimit.newer_than (a - 60)%Q t && Qle_bool t a)
             (admitted_times u (RateLimit.mk_limiter mx ∅) calls)) <= Z.to_nat mx)%nat.
Proof.
  intros Hnd a. rewrite RateLimitMore.admitted_times_window.
  apply RateLimitMore.window_bound. exact Hnd.
Qed.

Lemma rate_limit_window_X8_witness :
  nondecreasing (map fst (RateLimit.calls_of 1 [(0%Q, 1%Z); (5%Q, 2%Z); (10%Q, 1%Z); (20%Q, 1%Z); (30%Q, 1%Z)])) = true /\
  (length (List.filter (fun t => RateLimit.newer_than (59 - 60)%Q t && Qle_bool t 59)
     (admitted_times 1%Z (RateLimit.mk_limiter 2%Z ∅) [(0%Q, 1%Z); (5%Q, 2%Z); (10%Q, 1%Z); (20%Q, 1%Z); (30%Q, 1%Z)]))
     <= Z.to_nat 2%Z)%nat.
Proof.
  assert (H : nondecreasing (map fst (RateLimit.calls_of 1
    [(0%Q, 1%Z); (5%Q, 2%Z); (10%Q, 1%Z); (20%Q, 1%Z); (30%Q, 1%Z)])) = true) by (vm_compute; reflexivity).
  split; [exact H | exact (rate_limit_window_X8 _ _ _ H 59)].
Defined.

(* ------------------------------------------------------------------ *)
(** ** Completion client and environment *)

(** X9: a result that [call_deepseek] returns is already stripped: it has
    no leading or trailing whitespace (and it is not empty). *)
Theorem call_deepseek_stripped_X9 (tp : Completion.transport) (sp : Completion.system_prompt)
    (um v : pystr) :
  fst (Completion.call_deepseek tp sp um) = Completion.Ok v -> v <> [] /\ strip v = v.
Proof. apply StripFacts.call_ok_stripped. Qed.

Lemma call_deepseek_stripped_X9_witness :
  fst (Completion.call_deepseek (Completion.flaky_transport (lit "  Write a REST API  "))
         Completion.RefinementSystemPrompt (lit "a REST API")) =
    Completion.Ok (lit "Write a REST API") /\
  lit "Write a REST API" <> [] /\ strip (lit "Write a REST API") = lit "Write a REST API".
Proof.
  assert (H : fst (Completion.call_deepseek (Completion.flaky_transport (lit "  Write a REST API  "))
         Completion.RefinementSystemPrompt (lit "a REST API")) =
    Completion.Ok (lit "Write a REST API")) by (vm_compute; reflexivity).
  split; [exact H | exact (call_deepseek_stripped_X9 _ _ _ _ H)].
Defined.

(** X10: [_require_env] returns a non-empty stripped value, the stripped
    content of the variable; it raises [RuntimeError] for the variable
    exactly when it is unset or holds only whitespace (or nothing). *)
Theorem require_env_X10 (name : pystr) (value : option pystr) :
  (forall s, Config.require_env name value = inr s ->
     s <> [] /\ strip s = s /\ exists v, value = Some v /\ s = strip v) /\
  (Config.require_env name value = inl (Config.RuntimeError name) <->
     value = None \/ exists v, value = Some v /\ strip v = []).
Proof.
  destruct value as [v|]; cbn [Config.require_env].
  - destruct v as [|x v'].
    + split; [intros s E; discriminate E|].
      split; [intros _; right; exists []; split; reflexivity | reflexivity].
    + destruct (strip (x :: v')) as [|y ys] eqn:Hs.
      * split; [intros s E; discriminate E|].
        split; [intros _; right; exists (x :: v'); split; [reflexivity | exact Hs] | reflexivity].
      * split.
        -- intros s E. injection E as <-. split; [discriminate|]. split.
           ++ rewrite <- Hs. apply StripFacts.strip_idem.
           ++ exists (x :: v'). split; [reflexivity | symmetry; exact Hs].
        -- split; [intros E; discriminate E|].
           intros [E | (w & E & Hw)]; [discriminate E|].
           injection E as <-. congruence.
  - split; [intros s E; discriminate E|].
    split; [intros _; left; reflexivity | reflexivity].
Qed.

Lemma require_env_X10_witness :
  Config.require_env (lit "DEEPSEEK_API_KEY") (Some (lit " sk-123 ")) = inr (lit "sk-123") /\
  (lit "sk-123" <> [] /\ strip (lit "sk-123") = lit "sk-123" /\
   exists v, Some (lit " sk-123 ") = Some v /\ lit "sk-123" = strip v).
Proof.
  assert (E : Config.require_env (lit "DEEPSEEK_API_KEY") (Some (lit " sk-123 ")) =
              inr (lit "sk-123")) by (vm_compute; reflexivity).
  split; [exact E | exact (proj1 (require_env_X10 _ _) _ E)].
Defined.

(* ------------------------------------------------------------------ *)
(** ** Handlers *)

(** X11: a result of [call_deepseek] is always delivered in a non-empty
    list of Telegram messages, each non-empty and at most
    [MAX_MESSAGE_LENGTH] (4096) characters long, which together hold the
    words of the result in order: the split never raises. *)
Theorem prompt_messages_X11 (tp : Completion.transport) (sp : Completion.system_prompt)
    (um v : pystr) :
  fst (Completion.call_deepseek tp sp um) = Completion.Ok v ->
  exists ms, Handlers.prompt_messages v = Some ms /\ ms <> [] /\
    Forall (fun m => m <> [] /\ pylen m <= Handlers.MAX_MESSAGE_LENGTH) ms /\
    reassembles Handlers.MAX_MESSAGE_LENGTH ms (pysplit v).
Proof.
  intros H. destruct (StripFacts.call_ok_stripped _ _ _ _ H) as [Hne _].
  assert (Hx := StripFacts.call_ok_nonspace _ _ _ _ H).
  assert (HL : 0 < Handlers.MAX_MESSAGE_LENGTH) by (unfold Handlers.MAX_MESSAGE_LENGTH; lia).
  unfold Handlers.prompt_messages.
  destruct (Z.leb_spec (pylen v) Handlers.MAX_MESSAGE_LENGTH) as [Hle|Hgt].
  - destruct (ChunkerLoop.split_spec v _ HL) as (cs & _ & _ & Hr & Hone).
    rewrite (Hone Hne Hle) in Hr.
    exists [v]. split; [reflexivity|]. split; [discriminate|].
    split; [constructor; [split; assumption | constructor] | exact Hr].
  - destruct (ChunkerLoop.split_spec v _ HL) as (cs & Hcs & Hle & Hr & _).
    exists cs. split; [exact Hcs|].
    assert (Hsh := ChunkerMore.split_shape v _ cs HL Hgt Hcs).
    split; [exact (reassembles_nonnil _ cs (pysplit v) HL Hr (pysplit_go_nonnil v [] Hx))|].
    split; [|exact Hr].
    apply List.Forall_forall. intros c Hin. rewrite List.Forall_forall in Hsh, Hle.
    split; [apply ChunkerMore.chunk_shape_nonnil; auto | auto].
Qed.

Lemma prompt_messages_X11_witness :
  fst (Completion.call_deepseek (Completion.flaky_transport (lit "  Write a REST API  "))
         (Completion.SystemPrompt Completion.CODE) (lit "a REST API")) =
    Completion.Ok (lit "Write a REST API") /\
  exists ms, Handlers.prompt_messages (lit "Write a REST API") = Some ms /\ ms <> [] /\
    Forall (fun m => m <> [] /\ pylen m <= Handlers.MAX_MESSAGE_LENGTH) ms /\
    reassembles Handlers.MAX_MESSAGE_LENGTH ms (pysplit (lit "Write a REST API")).
Proof.
  assert (H : fst (Completion.call_deepseek (Completion.flaky_transport (lit "  Write a REST API  "))
         (Completion.SystemPrompt Completion.CODE) (lit "a REST API")) =
    Completion.Ok (lit "Write a REST API")) by (vm_compute; reflexivity).
  split; [exact H | exact (prompt_messages_X11 _ _ _ _ H)].
Defined.

(** X12: [handle_refinement] either leaves [context.user_data] as it was
    or, ending in [PROMPT_SHOWN] from a session with a last prompt,
    replaces only ["last_prompt"] by a new non-empty stripped prompt; the
    category, last category, original description and history are never
    changed. *)
Theorem handle_refinement_only_last_prompt_X12 (tp : Completion.transport)
    (del : Controller.delete_outcome) (now : Q) (uid : Z) (text : option pystr)
    (ses ses' : Controller.session) (rl rl' : RateLimit.RateLimiter)
    (st : Controller.ConversationState) :
  Controller.handle_refinement tp del now uid text ses rl = (st, ses', rl') ->
  ses' = ses \/
  (st = Controller.PROMPT_SHOWN /\ Controller.last_prompt ses <> None /\
   exists v, v <> [] /\ strip v = v /\
     ses' = Controller.mk_session (Controller.category ses) (Some v)
              (Controller.last_category ses) (Controller.original_description ses)
              (Controller.history ses)).
Proof. apply ControllerMore.handle_refinement_shape. Qed.

Lemma handle_refinement_only_last_prompt_X12_witness :
  Controller.handle_refinement (Completion.flaky_transport (lit "Write a short REST API in Go"))
    Controller.Deleted 0%Q 1 (Some (lit "make it shorter"))
    (Controller.mk_session (Some Completion.CODE) (Some (lit "Write a REST API in Go"))
       (Some Completion.CODE) (Some (lit "a REST API in Go")) [])
    RateLimit.rate_limiter0 =
  (Controller.PROMPT_SHOWN,
   Controller.mk_session (Some Completion.CODE) (Some (lit "Write a short REST API in Go"))
     (Some Completion.CODE) (Some (lit "a REST API in Go")) [],
   snd (RateLimit.is_allowed 0%Q 1 RateLimit.rate_limiter0)) /\
  (Controller.mk_session (Some Completion.CODE) (Some (lit "Write a short REST API in Go"))
     (Some Completion.CODE) (Some (lit "a REST API in Go")) [] =
   Controller.mk_session (Some Completion.CODE) (Some (lit "Write a REST API in Go"))
     (Some Completion.CODE) (Some (lit "a REST API in Go")) [] \/
   (Controller.PROMPT_SHOWN = Controller.PROMPT_SHOWN /\
    Controller.last_prompt (Controller.mk_session (Some Completion.CODE)
      (Some (lit "Write a REST API in Go")) (Some Completion.CODE)
      (Some (lit "a REST API in Go")) []) <> None /\
    exists v, v <> [] /\ strip v = v /\
      Controller.mk_session (Some Completion.CODE) (Some (lit "Write a short REST API in Go"))
        (Some Completion.CODE) (Some (lit "a REST API in Go")) [] =
      Controller.mk_session (Some Completion.CODE) (Some v) (Some Completion.CODE)
        (Some (lit "a REST API in Go")) [])).
Proof.
  assert (E : Controller.handle_refinement
    (Completion.flaky_transport (lit "Write a short REST API in Go"))
    Controller.Deleted 0%Q 1 (Some (lit "make it shorter"))
    (Controller.mk_session (Some Completion.CODE) (Some (lit "Write a REST API in Go"))
       (Some Completion.CODE) (Some (lit "a REST API in Go")) [])
    RateLimit.rate_limiter0 =
  (Controller.PROMPT_SHOWN,
   Controller.mk_session (Some Completion.CODE) (Some (lit "Write a short REST API in Go"))
     (Some Completion.CODE) (Some (lit "a REST API in Go")) [],
   snd (RateLimit.is_allowed 0%Q 1 RateLimit.rate_limiter0))) by (vm_compute; reflexivity).
  split; [exact E | exact (handle_refinement_only_last_prompt_X12 _ _ _ _ _ _ _ _ _ _ E)].
Defined.

(** X13: [handle_description] and [handle_refinement] use a rate-limit slot
    exactly when they reach [rate_limiter.is_allowed]: a category (resp. a
    non-empty last prompt) is stored and the stripped text is not empty.
    The limiter is then that of [is_allowed], whether the call is refused,
    the generation fails or succeeds, or a later reply raises; otherwise it
    is unchanged. *)
Theorem handlers_rate_slot_X13 (tp : Completion.transport) (del : Controller.delete_outcome)
    (sent : Controller.send_outcome) (now : Q) (uid : Z) (text : option pystr)
    (ses : Controller.session) (rl : RateLimit.RateLimiter) :
  snd (Controller.handle_description tp del sent now uid text ses rl) =
    match Controller.category ses with
    | None => rl
    | Some _ =>
        match Controller.message_text text with
        | [] => rl
        | _ => snd (RateLimit.is_allowed now uid rl)
        end
    end /\
  snd (Controller.handle_refinement tp del now uid text ses rl) =
    match Controller.last_prompt ses with
    | None | Some [] => rl
    | Some _ =>
        match Controller.message_text text with
        | [] => rl
        | _ => snd (RateLimit.is_allowed now uid rl)
        end
    end.
Proof.
  split.
  - unfold Controller.handle_description.
    destruct (Controller.category ses) as [cat|]; [|reflexivity].
    destruct (Controller.message_text text) as [|x t]; [reflexivity|].
    destruct (RateLimit.is_allowed now uid rl) as [[|] rl1]; [|reflexivity].
    cbn [negb]. destruct (fst (Completion.call_deepseek _ _ _)); [destruct del|];
      try destruct sent; reflexivity.
  - unfold Controller.handle_refinement.
    destruct (Controller.last_prompt ses) as [[|y l]|]; [reflexivity| |reflexivity].
    destruct (Controller.message_text text) as [|x t]; [reflexivity|].
    destruct (RateLimit.is_allowed now uid rl) as [[|] rl1]; [|reflexivity].
    cbn [negb]. destruct (fst (Completion.call_deepseek _ _ _)); [destruct del|]; reflexivity.
Qed.

(** X14: whatever updates a user sends, starting from an empty
    [context.user_data], the session keeps at most [HISTORY_MAX_ITEMS]
    history entries of at most 201 characters each. Also, ["last_prompt"],
    ["last_category"] and ["original_description"] are all set or all
    unset, and a stored prompt or description is non-empty and stripped. *)
Theorem session_invariant_X14 (us : list Handlers.update) (rl : RateLimit.RateLimiter) :
  session_ok (fst (Handlers.drive us Handlers.new_session rl)).
Proof.
  assert (H0 : session_ok Handlers.new_session).
  { unfold session_ok, Handlers.new_session. cbn.
    split; [unfold Controller.HISTORY_MAX_ITEMS; lia|].
    split; [constructor|]. split; [tauto|]. split; [tauto|].
    split; intros p E; discriminate E. }
  revert rl. generalize Handlers.new_session H0. clear H0.
  induction us as [|u us IH]; intros ses Hses rl; [exact Hses|].
  cbn [Handlers.drive].
  assert (Hd := ControllerMore.dispatch_ok u ses rl Hses).
  destruct (Handlers.dispatch u ses rl) as [[st ses1] rl1]. apply IH. exact Hd.
Qed.

(** X15: a category button whose data is a [Category] value stores that
    category, even when no chat id is found and [MAIN_MENU] is returned;
    it leaves the rest of the session unchanged. Any other data (or none)
    changes nothing and returns [MAIN_MENU]. *)
Theorem category_callback_X15 (c : Completion.Category) (mc ec : option Z)
    (ses : Controller.session) (data : option pystr) :
  Handlers.category_callback (Some (Some (Handlers.category_value c))) mc ec ses =
    (match Handlers.py_or_chat mc ec with
     | None => Controller.MAIN_MENU
     | Some _ => Controller.AWAITING_DESCRIPTION
     end,
     Controller.mk_session (Some c) (Controller.last_prompt ses) (Controller.last_category ses)
       (Controller.original_description ses) (Controller.history ses)) /\
  ((forall c', data <> Some (Handlers.category_value c')) ->
   Handlers.category_callback (Some data) mc ec ses = (Controller.MAIN_MENU, ses)).
Proof.
  split.
  - unfold Handlers.category_callback. rewrite ControllerMore.category_of_value_value.
    destruct (Handlers.py_or_chat mc ec); reflexivity.
  - intros Hd. unfold Handlers.category_callback.
    rewrite ControllerMore.category_of_value_none; [reflexivity|].
    intros c' E. destruct data as [d|].
    + apply (Hd c'). rewrite E. reflexivity.
    + destruct c'; vm_compute in E; discriminate E.
Qed.

Lemma category_callback_X15_witness :
  (forall c', Some (lit "Video") <> Some (Handlers.category_value c')) /\
  Handlers.category_callback (Some (Some (Handlers.category_value Completion.VIDEO))) None None
    Handlers.new_session =
    (match Handlers.py_or_chat None None with
     | None => Controller.MAIN_MENU
     | Some _ => Controller.AWAITING_DESCRIPTION
     end,
     Controller.mk_session (Some Completion.VIDEO) (Controller.last_prompt Handlers.new_session)
       (Controller.last_category Handlers.new_session)
       (Controller.original_description Handlers.new_session)
       (Controller.history Handlers.new_session)) /\
  Handlers.category_callback (Some (Some (lit "Video"))) (Some 7) None Handlers.new_session =
    (Controller.MAIN_MENU, Handlers.new_session).
Proof.
  assert (H : forall c', Some (lit "Video") <> Some (Handlers.category_value c')).
  { intros c' E. destruct c'; vm_compute in E; discriminate E. }
  split; [exact H|].
  split; [exact (proj1 (category_callback_X15 Completion.VIDEO None None Handlers.new_session
                          (Some (lit "Video"))))|].
  exact (proj2 (category_callback_X15 Completion.VIDEO (Some 7) None Handlers.new_session
                  (Some (lit "Video"))) H).
Defined.

(** X16: after any sequence of successful generations from an empty
    history, [/history] shows the empty-history message when there was
    none. Otherwise it shows a header with the number of entries kept
    (at most [HISTORY_MAX_ITEMS]) and one line per kept generation, most
    recent first, numbered from 1. Each line holds the category value and
    the first 150 characters of the result, then an ellipsis when the
    result has at least 150 characters. *)
Theorem cmd_history_display_X16 (gens : list (Completion.Category * pystr)) :
  Handlers.cmd_history
    (fold_left (fun h g => Controller.append_history h (fst g) (snd g)) gens []) =
  match gens with
  | [] => Handlers.MSG_HISTORY_EMPTY
  | _ => Handlers.history_header (Nat.min (length gens) Controller.HISTORY_MAX_ITEMS) ++
         pyjoin [10] (shown_lines 1 (rev (Controller.py_tail Controller.HISTORY_MAX_ITEMS gens)))
  end.
Proof.
  rewrite ControllerFacts.append_history_fold by (cbn; unfold Controller.HISTORY_MAX_ITEMS; lia).
  rewrite app_nil_l, ControllerMore.py_tail_map.
  destruct gens as [|g gs]; [reflexivity|].
  set (L := Controller.py_tail Controller.HISTORY_MAX_ITEMS (g :: gs)).
  assert (HL : length L = Nat.min (length (g :: gs)) Controller.HISTORY_MAX_ITEMS).
  { unfold L, Controller.py_tail. rewrite length_skipn.
    unfold Controller.HISTORY_MAX_ITEMS. cbn [length]. lia. }
  assert (Hne : L <> []).
  { intros E. rewrite E in HL. cbn [length] in HL. unfold Controller.HISTORY_MAX_ITEMS in HL. lia. }
  assert (Hc : forall h, h <> [] -> Handlers.cmd_history h =
            Handlers.history_header (length h) ++ pyjoin [10] (Handlers.history_lines 1 (rev h))).
  { intros [|e es] He; [congruence | reflexivity]. }
  rewrite Hc.
  - rewrite length_map, HL, <- map_rev, ControllerMore.history_lines_preview. reflexivity.
  - intros E. apply map_eq_nil in E. contradiction.
Qed.

(* ------------------------------------------------------------------ *)
(** ** Error report *)

Section ErrorReportProof.

(** [str.lower()], known on ASCII text. *)
Variable lower : pystr -> pystr.
Hypothesis lower_ascii :
  forall s, ErrorReport.is_ascii s -> lower s = map ErrorReport.ascii_lower s.

(** X17: when DeepSeek answers every attempt with no content or only
    whitespace, [call_deepseek] raises the [ValueError] "Empty response
    from DeepSeek" after its three attempts, and the handlers report it
    with [MSG_ERROR_UNKNOWN], not as a network or API error. *)
Theorem empty_response_report_X17 (tp : Completion.transport) (sp : Completion.system_prompt)
    (um : pystr) :
  (forall i : nat, tp sp um i = Completion.Response None \/
     exists s, tp sp um i = Completion.Response (Some s) /\ Forall (fun ch => is_space ch = true) s) ->
  Completion.call_deepseek tp sp um =
    (Completion.Err (Completion.ValueError Completion.EMPTY_RESPONSE_MSG),
     Completion.backoff_trace 2) /\
  ErrorReport.error_message lower (Completion.ValueError Completion.EMPTY_RESPONSE_MSG) =
    ErrorReport.MSG_ERROR_UNKNOWN.
Proof.
  intros Hall. split.
  - rewrite call_deepseek_unrolled.
    assert (Hb : forall i, Completion.attempt_once (tp sp um i) =
                           Completion.Err (Completion.ValueError Completion.EMPTY_RESPONSE_MSG)).
    { intros i. destruct (Hall i) as [E | (s & E & Hs)]; rewrite E;
        apply CompletionFacts.attempt_once_blank; [left; reflexivity | right; eauto]. }
    rewrite !Hb. reflexivity.
  - unfold ErrorReport.error_message. cbn [ErrorReport.str_exn].
    rewrite lower_ascii.
    + vm_compute. reflexivity.
    + assert (Hb : forallb (fun c => (0 <=? c) && (c <? 128)) Completion.EMPTY_RESPONSE_MSG = true)
        by (vm_compute; reflexivity).
      unfold ErrorReport.is_ascii. apply List.Forall_forall. intros c Hin.
      rewrite forallb_forall in Hb. specialize (Hb c Hin).
      apply andb_prop in Hb as [H1 H2]. lia.
Qed.

End ErrorReportProof.

Lemma empty_response_report_X17_witness :
  (forall s, ErrorReport.is_ascii s ->
     map ErrorReport.ascii_lower s = map ErrorReport.ascii_lower s) /\
  (forall i : nat,
     Completion.blank_transport Completion.RefinementSystemPrompt (lit "x") i =
       Completion.Response None \/
     exists s, Completion.blank_transport Completion.RefinementSystemPrompt (lit "x") i =
                 Completion.Response (Some s) /\
               Forall (fun ch => is_space ch = true) s) /\
  Completion.call_deepseek Completion.blank_transport Completion.RefinementSystemPrompt (lit "x") =
    (Completion.Err (Completion.ValueError Completion.EMPTY_RESPONSE_MSG),
     Completion.backoff_trace 2) /\
  ErrorReport.error_message (map ErrorReport.ascii_lower)
      (Completion.ValueError Completion.EMPTY_RESPONSE_MSG) = ErrorReport.MSG_ERROR_UNKNOWN.
Proof.
  assert (Hl : forall s, ErrorReport.is_ascii s ->
     map ErrorReport.ascii_lower s = map ErrorReport.ascii_lower s) by reflexivity.
  assert (Ht : forall i : nat,
     Completion.blank_transport Completion.RefinementSystemPrompt (lit "x") i =
       Completion.Response None \/
     exists s, Completion.blank_transport Completion.RefinementSystemPrompt (lit "x") i =
                 Completion.Response (Some s) /\
               Forall (fun ch => is_space ch = true) s).
  { intros i. right. exists [32; 10]. split; [reflexivity|].
    apply List.Forall_cons; [reflexivity|]. apply List.Forall_cons; [reflexivity|].
    apply List.Forall_nil. }
  split; [exact Hl|]. split; [exact Ht|].
  exact (empty_response_report_X17 (map ErrorReport.ascii_lower) Hl _ _ _ Ht).
Defined.
